(** * my_logging: the [logger] decorator and [get_currencies]

    A shallow embedding of [src/my_logging.py].  Python objects are an
    inductive type of values, exceptions are first-class objects with a
    class, constructor arguments and a [__cause__]; every Python call is a
    computation in a small state-and-exception monad whose state is the
    chronological list of method calls received by the log sinks. *)

From Stdlib Require Import List String Ascii ZArith Bool Lia.
From Stdlib Require Import DecimalString.
From Corelib Require Import SpecFloat.
Import ListNotations.
Open Scope string_scope.
Open Scope list_scope.
Set Warnings "-register-all".

(** String concatenation, kept apart from list append. *)
Infix "+:+" := String.append (at level 60, right associativity).

(** ** Python values *)

(** The objects that flow through the module: JSON payloads, positional
    and keyword arguments, results.  A [dict] keeps its items in insertion
    order, as in Python; its keys are strings (JSON objects, [**kwargs]). *)
Inductive value : Type :=
| VNone
| VBool (b : bool)
| VInt (z : Z)
| VFloat (f : spec_float)
| VStr (s : string)
| VList (xs : list value)
| VTuple (xs : list value)
| VDict (items : list (string * value)).

(** [type(v).__name__] *)
Definition type_name (v : value) : string :=
  match v with
  | VNone => "NoneType"
  | VBool _ => "bool"
  | VInt _ => "int"
  | VFloat _ => "float"
  | VStr _ => "str"
  | VList _ => "list"
  | VTuple _ => "tuple"
  | VDict _ => "dict"
  end.

Definition LF : string := String (ascii_of_nat 10) EmptyString.
Definition DQ : string := String (ascii_of_nat 34) EmptyString.

(** The builtin [repr] is left abstract: the module only ever splices its
    output into log lines and error messages. *)
Class Repr := repr : value -> string.

(** [str(v)]: a string is itself, every other builtin value is its [repr]. *)
Definition py_str `{Repr} (v : value) : string :=
  match v with
  | VStr s => s
  | _ => repr v
  end.

(** ** Exceptions *)

(** A class is known by its [__name__] and its method resolution order,
    given as qualified names, the class itself first. *)
Record exc_class : Type := {
  cls_name : string;
  cls_mro : list string
}.

Definition cls_id (c : exc_class) : string := hd "" (cls_mro c).

Definition issubclass (c d : exc_class) : bool :=
  existsb (String.eqb (cls_id d)) (cls_mro c).

Definition builtin (name : string) (bases : list string) : exc_class :=
  {| cls_name := name; cls_mro := name :: bases |}.

Definition BaseException := builtin "BaseException" [].
Definition Exception := builtin "Exception" ["BaseException"].
Definition KeyboardInterrupt := builtin "KeyboardInterrupt" ["BaseException"].
Definition ConnectionError :=
  builtin "ConnectionError" ["OSError"; "Exception"; "BaseException"].
Definition ValueError := builtin "ValueError" ["Exception"; "BaseException"].
Definition KeyError :=
  builtin "KeyError" ["LookupError"; "Exception"; "BaseException"].
Definition TypeError := builtin "TypeError" ["Exception"; "BaseException"].
Definition AttributeError :=
  builtin "AttributeError" ["Exception"; "BaseException"].
Definition OverflowError :=
  builtin "OverflowError" ["ArithmeticError"; "Exception"; "BaseException"].

(** [requests.exceptions.RequestException] derives from [IOError], that is
    [OSError]. *)
Definition RequestException : exc_class :=
  {| cls_name := "RequestException";
     cls_mro := ["requests.exceptions.RequestException";
                 "OSError"; "Exception"; "BaseException"] |}.

(** [json.JSONDecodeError], a [ValueError]. *)
Definition JSONDecodeError : exc_class :=
  {| cls_name := "JSONDecodeError";
     cls_mro := ["json.decoder.JSONDecodeError";
                 "ValueError"; "Exception"; "BaseException"] |}.

(** An exception object: its class, the arguments it was built with and
    its [__cause__] (set by [raise ... from]). *)
Inductive exception : Type :=
| Exc (cls : exc_class) (args : list value) (cause : option exception).

Definition exc_type (e : exception) : exc_class :=
  let 'Exc c _ _ := e in c.
Definition exc_args (e : exception) : list value :=
  let 'Exc _ a _ := e in a.
Definition exc_cause (e : exception) : option exception :=
  let 'Exc _ _ c := e in c.

Definition isinstance (e : exception) (c : exc_class) : bool :=
  issubclass (exc_type e) c.

(** [str(e)]: [BaseException.__str__], and the override of [KeyError],
    which shows the [repr] of a single argument.  (The errno formatting of
    a two-argument [OSError] is not modelled; the module builds its
    exceptions with one argument.) *)
Definition exc_str `{Repr} (e : exception) : string :=
  match exc_args e with
  | [] => ""
  | [a] => if issubclass (exc_type e) KeyError then repr a else py_str a
  | a => repr (VTuple a)
  end.

(** [raise C(msg)] and [raise C(msg) from e] build these objects. *)
Definition new_exc (c : exc_class) (msg : string) : exception :=
  Exc c [VStr msg] None.
Definition new_exc_from (c : exc_class) (msg : string) (e : exception)
  : exception :=
  Exc c [VStr msg] (Some e).

(** ** Log sinks and the trace of what they receive *)

Inductive stream : Type :=
| Stdout                    (* sys.stdout *)
| StringIO (id : nat).      (* an io.StringIO() instance *)

(** What can be passed as [handle]: a [logging.Logger] instance, an object
    with a [write] method, or an object that is neither (it is not an
    instance of [logging.Logger] and has no attribute [write]). *)
Inductive handle : Type :=
| Logger (name : string)
| Writer (w : stream)
| Foreign (type_name : string).

Inductive sink_call : Type :=
| call_info (msg : string)       (* .info(msg) *)
| call_error (msg : string)      (* .error(msg) *)
| call_write (text : string).    (* .write(text) *)

(** Every method call received by a sink, oldest first. *)
Definition trace : Type := list (handle * sink_call).

(** ** The monad of Python computations *)

Inductive outcome (A : Type) : Type :=
| Returned (a : A)
| Raised (e : exception).
Arguments Returned {A} a.
Arguments Raised {A} e.

Definition M (A : Type) : Type := trace -> outcome A * trace.

Definition ret {A} (a : A) : M A := fun s => (Returned a, s).

Definition raise {A} (e : exception) : M A := fun s => (Raised e, s).

Definition bind {A B} (m : M A) (k : A -> M B) : M B :=
  fun s =>
    match m s with
    | (Returned a, s') => k a s'
    | (Raised e, s') => (Raised e, s')
    end.

(** [try: body  except C as e: handler] *)
Definition try_except {A} (body : M A) (C : exc_class)
  (handler : exception -> M A) : M A :=
  fun s =>
    match body s with
    | (Returned a, s') => (Returned a, s')
    | (Raised e, s') =>
        if isinstance e C then handler e s' else (Raised e, s')
    end.

Definition emit (h : handle) (c : sink_call) : M unit :=
  fun s => (Returned tt, s ++ [(h, c)]).

Declare Scope py_scope.
Delimit Scope py_scope with py.
Notation "x <- m ;; k" := (bind m (fun x => k))
  (at level 61, m at next level, right associativity) : py_scope.
Notation "m ;; k" := (bind m (fun _ => k))
  (at level 61, right associativity) : py_scope.
Open Scope py_scope.

(** ** Attribute access on a handle *)

Definition handle_type_name (h : handle) : string :=
  match h with
  | Logger _ => "Logger"
  | Writer Stdout => "_io.TextIOWrapper"
  | Writer (StringIO _) => "_io.StringIO"
  | Foreign t => t
  end.

Definition no_attribute (h : handle) (attr : string) : exception :=
  new_exc AttributeError
    ("'" +:+ handle_type_name h +:+ "' object has no attribute '" +:+ attr +:+ "'").

(** [handle.info(msg)], [handle.error(msg)], [handle.write(text)] *)
Definition handle_info (h : handle) (msg : string) : M unit :=
  match h with
  | Logger _ => emit h (call_info msg)
  | _ => raise (no_attribute h "info")
  end.

Definition handle_error (h : handle) (msg : string) : M unit :=
  match h with
  | Logger _ => emit h (call_error msg)
  | _ => raise (no_attribute h "error")
  end.

Definition handle_write (h : handle) (text : string) : M unit :=
  match h with
  | Writer _ => emit h (call_write text)
  | _ => raise (no_attribute h "write")
  end.

(** [isinstance(handle, logging.Logger)] *)
Definition isinstance_Logger (h : handle) : bool :=
  match h with
  | Logger _ => true
  | _ => false
  end.

(** ** The decorator *)

Record callable : Type := {
  __name__ : string;
  __call__ : list value -> list (string * value) -> M value
}.

Section Decorator.
Context `{Repr}.

(** The two closures [_decorate] chooses between, lines 37-45. *)
Definition info (h : handle) : string -> M unit :=
  if isinstance_Logger h then handle_info h
  else fun msg => handle_write h ("INFO: " +:+ msg +:+ LF).

Definition error (h : handle) : string -> M unit :=
  if isinstance_Logger h then handle_error h
  else fun msg => handle_write h ("ERROR: " +:+ msg +:+ LF).

(** Lines 48-59. *)
Definition wrapper (h : handle) (fn : callable)
  (args : list value) (kwargs : list (string * value)) : M value :=
  info h ("Calling " +:+ __name__ fn +:+ " with args=" +:+ py_str (VTuple args)
          +:+ ", kwargs=" +:+ py_str (VDict kwargs)) ;;
  try_except
    (result <- __call__ fn args kwargs ;;
     info h (__name__ fn +:+ " returned " +:+ repr result) ;;
     ret result)
    Exception
    (fun e =>
       error h ("Function " +:+ __name__ fn +:+ " raised "
                +:+ cls_name (exc_type e) +:+ ": " +:+ exc_str e) ;;
       raise e).

(** [functools.wraps(fn)] gives the wrapper the name of [fn]. *)
Definition _decorate (h : handle) (fn : callable) : M callable :=
  ret {| __name__ := __name__ fn; __call__ := wrapper h fn |}.

Inductive logger_result : Type :=
| Decorator (d : callable -> M callable)   (* @logger(handle=...) *)
| Wrapped (w : callable).                  (* @logger *)

(** [def logger(func=None, *, handle=sys.stdout)] *)
Definition logger (func : option callable) (handle_arg : option handle)
  : M logger_result :=
  let h := match handle_arg with
           | Some h => h
           | None => Writer Stdout
           end in
  match func with
  | None => ret (Decorator (_decorate h))
  | Some fn => w <- _decorate h fn ;; ret (Wrapped w)
  end.

End Decorator.

(** ** Builtin operations used by [get_currencies] *)

(** [d.get(key)] on the items of a dict *)
Fixpoint dict_get (items : list (string * value)) (key : string)
  : option value :=
  match items with
  | [] => None
  | (k, v) :: rest => if String.eqb key k then Some v else dict_get rest key
  end.

(** [d[key] = v]: an existing key keeps its place, a new one goes last. *)
Fixpoint dict_set (items : list (string * value)) (key : string) (v : value)
  : list (string * value) :=
  match items with
  | [] => [(key, v)]
  | (k, x) :: rest =>
      if String.eqb key k then (k, v) :: rest
      else (k, x) :: dict_set rest key v
  end.

Definition dict_keys (items : list (string * value)) : list string :=
  map fst items.

(** [key in s] for two strings: [key] occurs in [s]. *)
Fixpoint substring_of (key s : string) : bool :=
  String.prefix key s ||
  match s with
  | EmptyString => false
  | String _ s' => substring_of key s'
  end.

Definition str_equals (key : string) (v : value) : bool :=
  match v with
  | VStr s => String.eqb key s
  | _ => false
  end.

(** [key in c] for a string [key]: key membership for a dict, element
    membership for a list or tuple, substring test for a string; the other
    types are not containers (message as worded by CPython 3.12). *)
Definition py_in (key : string) (c : value) : M bool :=
  match c with
  | VDict items => ret (existsb (String.eqb key) (dict_keys items))
  | VList xs => ret (existsb (str_equals key) xs)
  | VTuple xs => ret (existsb (str_equals key) xs)
  | VStr s => ret (substring_of key s)
  | _ => raise (new_exc TypeError
                  ("argument of type '" +:+ type_name c +:+ "' is not iterable"))
  end.

(** [c[key]] for a string [key] *)
Definition py_getitem (c : value) (key : string) : M value :=
  match c with
  | VDict items =>
      match dict_get items key with
      | Some v => ret v
      | None => raise (Exc KeyError [VStr key] None)
      end
  | VList _ =>
      raise (new_exc TypeError
               "list indices must be integers or slices, not str")
  | VTuple _ =>
      raise (new_exc TypeError
               "tuple indices must be integers or slices, not str")
  | VStr _ =>
      raise (new_exc TypeError "string indices must be integers, not 'str'")
  | _ =>
      raise (new_exc TypeError
               ("'" +:+ type_name c +:+ "' object is not subscriptable"))
  end.

(** [c.get(key)]: only a dict has the method; a missing key gives [None]. *)
Definition py_get (c : value) (key : string) : M value :=
  match c with
  | VDict items =>
      match dict_get items key with
      | Some v => ret v
      | None => ret VNone
      end
  | _ =>
      raise (new_exc AttributeError
               ("'" +:+ type_name c +:+ "' object has no attribute 'get'"))
  end.

(** [isinstance(v, (int, float))]; [bool] is a subclass of [int]. *)
Definition isinstance_int_float (v : value) : bool :=
  match v with
  | VInt _ | VBool _ | VFloat _ => true
  | _ => false
  end.

(** The IEEE 754 double nearest to an integer (ties to even). *)
Definition double_of_Z (z : Z) : spec_float :=
  binary_normalize 53 1024 z 0 false.

Definition float_of_int (z : Z) : M spec_float :=
  match double_of_Z z with
  | S754_infinity _ =>
      raise (new_exc OverflowError "int too large to convert to float")
  | f => ret f
  end.

(** [float(v)] for the numbers that pass [isinstance(v, (int, float))];
    the conversion of other objects is not used by the module. *)
Definition py_float (v : value) : M spec_float :=
  match v with
  | VFloat f => ret f
  | VInt z => float_of_int z
  | VBool b => float_of_int (if b then 1 else 0)
  | _ =>
      raise (new_exc TypeError
               ("float() argument must be a string or a real number, not '"
                +:+ type_name v +:+ "'"))
  end.

(** ** The HTTP collaborator *)

(** What [requests.get(url, timeout=5.0)] followed by [raise_for_status()]
    does for a URL: it raises, or yields a response whose [json()] method
    returns the decoded payload or raises. *)
Inductive http_reply : Type :=
| RequestFails (e : exception)
| Response (json : outcome value).

Definition default_url : string :=
  "https://www.cbr-xml-daily.ru/daily_json.js".

(** The [url] parameter, with its default. *)
Definition resolve_url (url : option string) : string :=
  match url with
  | Some u => u
  | None => default_url
  end.

Section Currencies.
Context `{Repr}.
Variable requests_get : string -> http_reply.

Definition send_request (url : string) : M (outcome value) :=
  match requests_get url with
  | RequestFails e => raise e
  | Response r => ret r
  end.

Definition response_json (response : outcome value) : M value :=
  fun s => (response, s).

(** The [for code in currency_codes] loop, lines 105-113. *)
Fixpoint for_codes (valute : value) (currency_codes : list string)
  (result : list (string * value)) : M (list (string * value)) :=
  match currency_codes with
  | [] => ret result
  | code :: rest =>
      present <- py_in code valute ;;
      if negb present then
        raise (new_exc KeyError
                 ("Валюта '" +:+ code +:+ "' отсутствует в данных API"))
      else
        entry <- py_getitem valute code ;;
        value <- py_get entry "Value" ;;
        if negb (isinstance_int_float value) then
          raise (new_exc TypeError
                   ("Валюта '" +:+ code +:+ "' имеет нечисловой тип: "
                    +:+ repr value))
        else
          f <- py_float value ;;
          for_codes valute rest (dict_set result code (VFloat f))
  end.

(** Lines 88-115. *)
Definition get_currencies (currency_codes : list string)
  (url : option string) : M value :=
  response <-
    try_except (send_request (resolve_url url)) RequestException
      (fun e => raise (new_exc_from ConnectionError
                         ("Ошибка при запросе к API: " +:+ exc_str e) e)) ;;
  data <-
    try_except (response_json response) ValueError
      (fun e => raise (new_exc_from ValueError
                         "Некорректный JSON в ответе API" e)) ;;
  present <- py_in "Valute" data ;;
  if negb present then
    raise (new_exc KeyError
             ("В ответе JSON отсутствует ключ " +:+ DQ +:+ "Valute" +:+ DQ))
  else
    valute <- py_getitem data "Valute" ;;
    result <- for_codes valute currency_codes [] ;;
    ret (VDict result).

End Currencies.

(** ** A concrete [repr] for the examples *)

Fixpoint join (sep : string) (parts : list string) : string :=
  match parts with
  | [] => ""
  | [p] => p
  | p :: rest => p +:+ sep +:+ join sep rest
  end.

Definition decimal (z : Z) : string := NilZero.string_of_int (Z.to_int z).

Fixpoint has_char (c : ascii) (s : string) : bool :=
  match s with
  | EmptyString => false
  | String c' s' => Ascii.eqb c c' || has_char c s'
  end.

Definition hex_digit (n : nat) : string :=
  String (nth n (list_ascii_of_string "0123456789abcdef") "0"%char) "".

Definition escape_char (quote c : ascii) : string :=
  let n := nat_of_ascii c in
  if Ascii.eqb c "\"%char then "\\"
  else if Ascii.eqb c quote then String "\"%char (String c "")
  else if Nat.eqb n 10 then "\n"
  else if Nat.eqb n 13 then "\r"
  else if Nat.eqb n 9 then "\t"
  else if (Nat.ltb n 32 || Nat.eqb n 127)%bool
       then "\x" +:+ hex_digit (n / 16) +:+ hex_digit (n mod 16)
  else String c "".

Fixpoint escape (quote : ascii) (s : string) : string :=
  match s with
  | EmptyString => ""
  | String c s' => escape_char quote c +:+ escape quote s'
  end.

(** [repr] of a string: single quotes, unless the text has a single quote
    and no double quote. *)
Definition repr_str (s : string) : string :=
  let quote :=
    if (has_char "'"%char s && negb (has_char (ascii_of_nat 34) s))%bool
    then ascii_of_nat 34 else "'"%char in
  String quote (escape quote s +:+ String quote "").

Definition repr_float (f : spec_float) : string :=
  match f with
  | S754_zero s => if s then "-0.0" else "0.0"
  | S754_infinity s => if s then "-inf" else "inf"
  | S754_nan => "nan"
  | S754_finite s m e =>
      let sign := if s then "-" else "" in
      let whole := (Z.pos m * 2 ^ e)%Z in
      if ((0 <=? e) && (whole <? 10 ^ 16))%Z
      then sign +:+ decimal whole +:+ ".0"
      else if ((e <? 0) && (Z.pos m mod 2 ^ (- e) =? 0))%Z
      then sign +:+ decimal (Z.pos m / 2 ^ (- e)) +:+ ".0"
      else sign +:+ decimal (Z.pos m) +:+ "*2**" +:+ decimal e
  end.

(** CPython's [repr] on [None], booleans, integers, text whose characters
    are printable, floats with an integral value below [10^16], and lists,
    tuples and dicts of these.  Other floats are shown as mantissa and
    exponent, which is not CPython's shortest-digits form. *)
Fixpoint repr_basic (v : value) : string :=
  match v with
  | VNone => "None"
  | VBool b => if b then "True" else "False"
  | VInt z => decimal z
  | VFloat f => repr_float f
  | VStr s => repr_str s
  | VList xs => "[" +:+ join ", " (map repr_basic xs) +:+ "]"
  | VTuple xs =>
      match xs with
      | [x] => "(" +:+ repr_basic x +:+ ",)"
      | _ => "(" +:+ join ", " (map repr_basic xs) +:+ ")"
      end
  | VDict items =>
      "{" +:+ join ", "
                (map (fun kv => let '(k, x) := kv in
                                repr_str k +:+ ": " +:+ repr_basic x) items)
      +:+ "}"
  end.

#[export] Instance Repr_basic : Repr := repr_basic.

(** ** The records of one call, as the specification names them *)

Inductive level : Type := INFO | ERROR.

Definition tag (lvl : level) : string :=
  match lvl with
  | INFO => "INFO: "
  | ERROR => "ERROR: "
  end.

(** The method call by which a record of a given level reaches a leveled
    logger, and the one by which it reaches a writer. *)
Definition logged (name : string) (r : level * string) : handle * sink_call :=
  (Logger name,
   match fst r with
   | INFO => call_info (snd r)
   | ERROR => call_error (snd r)
   end).

Definition written (w : stream) (r : level * string) : handle * sink_call :=
  (Writer w, call_write (tag (fst r) +:+ snd r +:+ LF)).

(** A sink with one of the two supported capabilities. *)
Definition supported (h : handle) : Prop :=
  match h with
  | Foreign _ => False
  | _ => True
  end.

(** The trace entry a record leaves on a supported sink (for a sink that is
    not supported no entry is ever made; the last case is immaterial). *)
Definition entry (h : handle) (r : level * string) : handle * sink_call :=
  match h with
  | Logger name => logged name r
  | Writer w => written w r
  | Foreign _ => (h, call_write (tag (fst r) +:+ snd r +:+ LF))
  end.

Section Records.
Context `{Repr}.

Definition start_record (fn : callable) (args : list value)
  (kwargs : list (string * value)) : level * string :=
  (INFO, "Calling " +:+ __name__ fn +:+ " with args=" +:+ py_str (VTuple args)
         +:+ ", kwargs=" +:+ py_str (VDict kwargs)).

Definition success_record (fn : callable) (result : value)
  : level * string :=
  (INFO, __name__ fn +:+ " returned " +:+ repr result).

Definition error_record (fn : callable) (e : exception) : level * string :=
  (ERROR, "Function " +:+ __name__ fn +:+ " raised "
          +:+ cls_name (exc_type e) +:+ ": " +:+ exc_str e).



(** The records that close a call, after those of the target itself. *)
Definition closing_records (fn : callable) (o : outcome value)
  : list (level * string) :=
  match o with
  | Returned r => [success_record fn r]
  | Raised e => if isinstance e Exception then [error_record fn e] else []
  end.


End Records.

(** ** The rate a payload quotes for a code *)

Definition finite_double (z : Z) : option spec_float :=
  match double_of_Z z with
  | S754_infinity _ => None
  | f => Some f
  end.

(** The number found under [valute[code]["Value"]], as a float, when the
    payload has that shape and the number fits a double. *)
Definition quoted_rate (valute : value) (code : string) : option spec_float :=
  match valute with
  | VDict rates =>
      match dict_get rates code with
      | Some (VDict fields) =>
          match dict_get fields "Value" with
          | Some (VFloat f) => Some f
          | Some (VInt z) => finite_double z
          | Some (VBool b) => finite_double (if b then 1 else 0)
          | _ => None
          end
      | _ => None
      end
  | _ => None
  end.

(** The dict built from the quoted rates of a list of codes. *)
Fixpoint fill (valute : value) (codes : list string)
  (result : list (string * value)) : list (string * value) :=
  match codes with
  | [] => result
  | code :: rest =>
      match quoted_rate valute code with
      | Some f => fill valute rest (dict_set result code (VFloat f))
      | None => fill valute rest result
      end
  end.



Definition quoted (valute : value) (code : string) : Prop :=
  quoted_rate valute code <> None.

Definition one : spec_float := S754_finite false 4503599627370496 (-52).
Definition zero : spec_float := S754_zero false.

(** Every value of a dict is a float. *)
Definition all_floats (items : list (string * value)) : Prop :=
  Forall (fun kv => exists f, snd kv = VFloat f) items.

(** ** Sample targets, sinks and payloads *)

(** [def f(x): return x]; the failures of argument binding are collapsed
    into a single [TypeError]. *)
Definition f_identity : callable :=
  {| __name__ := "f";
     __call__ := fun args kwargs =>
       match args, kwargs with
       | [x], [] => ret x
       | [], [("x", x)] => ret x
       | _, _ => raise (new_exc TypeError "f() takes exactly one argument x")
       end |}.

Definition bad : callable :=
  {| __name__ := "bad";
     __call__ := fun _ _ => raise (new_exc ValueError "test") |}.


Definition buffer : handle := Writer (StringIO 0).

Definition payload (rate : value) : value :=
  VDict [("Valute", VDict [("USD", VDict [("Value", rate)])])].

Definition serves (data : value) : string -> http_reply :=
  fun _ => Response (Returned data).

Definition offline : string -> http_reply :=
  fun _ => RequestFails (Exc RequestException [] None).

(** A request interrupted from the keyboard. *)
Definition interrupted_request : string -> http_reply :=
  fun _ => RequestFails (Exc KeyboardInterrupt [] None).

(** [def call_api(): return get_currencies(["USD"])] *)
Definition call_api (requests_get : string -> http_reply) : callable :=
  {| __name__ := "call_api";
     __call__ := fun args kwargs =>
       match args, kwargs with
       | [], [] => get_currencies requests_get ["USD"] None
       | _, _ => raise (new_exc TypeError "call_api() takes no arguments")
       end |}.

(** ** Arithmetic on Python numbers *)

Definition ZeroDivisionError :=
  builtin "ZeroDivisionError" ["ArithmeticError"; "Exception"; "BaseException"].

(** An [int] (a [bool] counts as the int 0 or 1) or a [float]. *)
Inductive number : Type :=
| NInt (z : Z)
| NFloat (f : spec_float).

Definition as_number (v : value) : option number :=
  match v with
  | VInt z => Some (NInt z)
  | VBool b => Some (NInt (if b then 1 else 0))
  | VFloat f => Some (NFloat f)
  | _ => None
  end.

(** The conversion applied to an operand of a float operation. *)
Definition to_double (n : number) : M spec_float :=
  match n with
  | NInt z => float_of_int z
  | NFloat f => ret f
  end.

Definition unsupported (op : string) (x y : value) : exception :=
  new_exc TypeError
    ("unsupported operand type(s) for " +:+ op +:+ ": '" +:+ type_name x
     +:+ "' and '" +:+ type_name y +:+ "'").

(** A binary operator on two numbers: exact on two ints, otherwise on the
    doubles of both operands.  Operands that are not numbers are outside
    what the module computes with; they are given the [TypeError] of the
    numeric protocol. *)
Definition arith (op : string) (on_ints : Z -> Z -> M value)
  (on_doubles : spec_float -> spec_float -> M value) (x y : value) : M value :=
  match as_number x, as_number y with
  | Some (NInt a), Some (NInt b) => on_ints a b
  | Some n, Some m =>
      fx <- to_double n ;; fy <- to_double m ;; on_doubles fx fy
  | _, _ => raise (unsupported op x y)
  end.

Definition py_add : value -> value -> M value :=
  arith "+" (fun a b => ret (VInt (a + b)))
            (fun x y => ret (VFloat (SFadd 53 1024 x y))).

Definition py_sub : value -> value -> M value :=
  arith "-" (fun a b => ret (VInt (a - b)))
            (fun x y => ret (VFloat (SFsub 53 1024 x y))).

Definition py_mul : value -> value -> M value :=
  arith "*" (fun a b => ret (VInt (a * b)))
            (fun x y => ret (VFloat (SFmul 53 1024 x y))).

(** [a / b] on two ints: the double nearest to the quotient (ties to
    even); a zero result takes the sign of the operands. *)
Definition int_truediv (a b : Z) : M value :=
  if (b =? 0)%Z then raise (new_exc ZeroDivisionError "division by zero")
  else
    let sign := xorb (a <? 0)%Z (b <? 0)%Z in
    if (a =? 0)%Z then ret (VFloat (S754_zero sign))
    else
      let '(q, e, l) := SFdiv_core_binary 53 1024 (Z.abs a) 0 (Z.abs b) 0 in
      match binary_round_aux 53 1024 sign q e l with
      | S754_infinity _ =>
          raise (new_exc OverflowError
                   "integer division result too large for a float")
      | f => ret (VFloat f)
      end.

(** [x / y] on two doubles (message as worded by CPython 3.12). *)
Definition float_truediv (x y : spec_float) : M value :=
  if SFeqb y (S754_zero false)
  then raise (new_exc ZeroDivisionError "float division by zero")
  else ret (VFloat (SFdiv 53 1024 x y)).

Definition py_truediv : value -> value -> M value :=
  arith "/" int_truediv float_truediv.

(** [-x] *)
Definition py_neg (x : value) : M value :=
  match as_number x with
  | Some (NInt z) => ret (VInt (- z))
  | Some (NFloat f) => ret (VFloat (SFopp f))
  | None =>
      raise (new_exc TypeError
               ("bad operand type for unary -: '" +:+ type_name x +:+ "'"))
  end.

(** [x == 0]; an object that is not a number is not equal to 0. *)
Definition py_eq_zero (x : value) : M bool :=
  match as_number x with
  | Some (NInt z) => ret (z =? 0)%Z
  | Some (NFloat f) => ret (SFeqb f (S754_zero false))
  | None => ret false
  end.

(** [x < 0] *)
Definition py_lt_zero (x : value) : M bool :=
  match as_number x with
  | Some (NInt z) => ret (z <? 0)%Z
  | Some (NFloat f) => ret (SFltb f (S754_zero false))
  | None =>
      raise (new_exc TypeError
               ("'<' not supported between instances of '" +:+ type_name x
                +:+ "' and 'int'"))
  end.

(** The float literal [0.5]. *)
Definition half : spec_float := S754_finite false 4503599627370496 (-53).

Section Quadratic.

(** The [pow] of the C library, which [float ** float] calls for a finite
    positive base. *)
Variable libm_pow : spec_float -> spec_float -> spec_float.

(** [x ** 0.5] on a double: a NaN base gives NaN, an infinite base gives
    infinity, a zero base gives 0.0 and a finite positive base gives
    [pow(x, 0.5)].  (A finite negative base gives a complex number in
    Python; the module never raises one to a power.) *)
Definition float_pow_half (x : spec_float) : spec_float :=
  match x with
  | S754_nan => S754_nan
  | S754_infinity _ => S754_infinity false
  | S754_zero _ => S754_zero false
  | S754_finite _ _ _ => libm_pow x half
  end.

(** [x ** 0.5] *)
Definition py_pow_half (x : value) : M value :=
  match as_number x with
  | Some n => fx <- to_double n ;; ret (VFloat (float_pow_half fx))
  | None => raise (unsupported "** or pow()" x (VFloat half))
  end.

(** The [for name, val in ...] loop, lines 183-185. *)
Fixpoint check_numbers (params : list (string * value)) : M unit :=
  match params with
  | [] => ret tt
  | (name, val) :: rest =>
      if negb (isinstance_int_float val) then
        raise (new_exc TypeError
                 ("Параметр '" +:+ name +:+ "' должен быть числом"))
      else check_numbers rest
  end.

(** The body of [solve_quadratic], lines 183-197. *)
Definition solve_quadratic (a b c : value) : M value :=
  check_numbers [("a", a); ("b", b); ("c", c)] ;;
  a_is_zero <- py_eq_zero a ;;
  if a_is_zero then
    raise (new_exc ValueError "Коэффициент 'a' не может быть нулем")
  else
    b_b <- py_mul b b ;;
    four_a <- py_mul (VInt 4) a ;;
    four_a_c <- py_mul four_a c ;;
    d <- py_sub b_b four_a_c ;;
    d_negative <- py_lt_zero d ;;
    if d_negative then ret VNone
    else
      d_is_zero <- py_eq_zero d ;;
      if d_is_zero then
        minus_b <- py_neg b ;;
        two_a <- py_mul (VInt 2) a ;;
        root <- py_truediv minus_b two_a ;;
        ret (VTuple [root])
      else
        sqrt_d <- py_pow_half d ;;
        minus_b <- py_neg b ;;
        sum <- py_add minus_b sqrt_d ;;
        two_a <- py_mul (VInt 2) a ;;
        root1 <- py_truediv sum two_a ;;
        minus_b' <- py_neg b ;;
        difference <- py_sub minus_b' sqrt_d ;;
        two_a' <- py_mul (VInt 2) a ;;
        root2 <- py_truediv difference two_a' ;;
        ret (VTuple [root1; root2]).

End Quadratic.

(** ** The decorated functions of the module *)

(** [stream = io.StringIO()], [logging.getLogger("currency_file")] and
    [logging.getLogger("quadratic")]. *)
Definition module_stream : handle := Writer (StringIO 0).
Definition currency_file_logger : handle := Logger "currency_file".
Definition quadratic_logger : handle := Logger "quadratic".

(** A target as a call applies it: the body run on the arguments of the
    call. *)
Definition applied (name : string) (body : M value) : callable :=
  {| __name__ := name; __call__ := fun _ _ => body |}.

Section Decorated.
Context `{Repr}.
Variable requests_get : string -> http_reply.
Variable libm_pow : spec_float -> spec_float -> spec_float.

(** The call [name(currency_codes)] of a function declared as
    [@logger(handle=h) def name(currency_codes): return
    get_currencies(currency_codes)], on a list of strings. *)
Definition logged_get_currencies (h : handle) (name : string)
  (currency_codes : list string) : M value :=
  wrapper h (applied name (get_currencies requests_get currency_codes None))
    [VList (map VStr currency_codes)] [].

(** Lines 121-123, 130-132 and 147-149. *)
Definition get_currencies_stdout : list string -> M value :=
  logged_get_currencies (Writer Stdout) "get_currencies_stdout".
Definition get_currencies_stringio : list string -> M value :=
  logged_get_currencies module_stream "get_currencies_stringio".
Definition get_currencies_file : list string -> M value :=
  logged_get_currencies currency_file_logger "get_currencies_file".

(** The call [solve_quadratic(a, b, c)] of the decorated function, line
    163. *)
Definition solve_quadratic_logged (a b c : value) : M value :=
  wrapper quadratic_logger
    (applied "solve_quadratic" (solve_quadratic libm_pow a b c)) [a; b; c] [].

End Decorated.

(** A [pow] that is correctly rounded at the exponent 0.5, for the
    examples. *)
Definition sqrt_pow (x w : spec_float) : spec_float := SFsqrt 53 1024 x.

(** ** Notions used to describe the functions of the module *)

(** A computation that leaves the sinks alone and whose outcome does not
    depend on what they have received. *)
Definition silent {A : Type} (m : M A) : Prop :=
  exists o, forall s, m s = (o, s).

(** A silent computation whose result satisfies [P] and whose failure
    satisfies [Q]. *)
Definition yields {A : Type} (m : M A) (P : A -> Prop)
  (Q : exception -> Prop) : Prop :=
  exists o, (forall s, m s = (o, s)) /\
            match o with
            | Returned a => P a
            | Raised e => Q e
            end.

(** The keys of a dict filled by assigning to the codes in turn: each code
    at the place of its first occurrence. *)
Definition remember (keys : list string) (c : string) : list string :=
  if existsb (String.eqb c) keys then keys else keys ++ [c].

Definition first_occurrences (codes : list string) : list string :=
  fold_left remember codes [].

Definition is_dict (v : value) : bool :=
  match v with
  | VDict _ => true
  | _ => false
  end.

Definition raises (c : exc_class) (e : exception) : Prop := exc_type e = c.

(** The coefficients that are ints ([bool] included). *)
Definition as_int (v : value) : option Z :=
  match as_number v with
  | Some (NInt z) => Some z
  | _ => None
  end.

(** What [solve_quadratic] can return: [None], one root or two roots. *)
Definition no_root (v : value) : Prop := v = VNone.
Definition one_root (v : value) : Prop := exists f, v = VTuple [VFloat f].
Definition two_roots (v : value) : Prop :=
  exists f g, v = VTuple [VFloat f; VFloat g].

Definition roots (v : value) : Prop := no_root v \/ one_root v \/ two_roots v.

Definition is_float (v : value) : Prop := exists f, v = VFloat f.

(** No constraint on a result. *)
Definition anything {A : Type} (a : A) : Prop := True.

(** A failure of one of the kinds the arithmetic of the module can give,
    all of them derived from [Exception]. *)
Definition arithmetic_failure (e : exception) : Prop :=
  raises TypeError e \/ raises OverflowError e \/ raises ZeroDivisionError e.

Definition quadratic_failure (e : exception) : Prop :=
  raises ValueError e \/ arithmetic_failure e.

(** A failure that reading the payload can give. *)
Definition payload_failure (e : exception) : Prop :=
  raises KeyError e \/ raises TypeError e \/ raises AttributeError e \/
  raises OverflowError e.

Section Payload.
Context `{Repr}.

(** What [get_currencies] does once the payload is decoded, lines
    99-115. *)
Definition read_payload (data : value) (currency_codes : list string)
  : M value :=
  present <- py_in "Valute" data ;;
  if negb present then
    raise (new_exc KeyError
             ("В ответе JSON отсутствует ключ " +:+ DQ +:+ "Valute" +:+ DQ))
  else
    valute <- py_getitem data "Valute" ;;
    result <- for_codes valute currency_codes [] ;;
    ret (VDict result).

End Payload.

(** * Properties of the decorator *)

Section DecoratorFacts.
Context `{Repr}.

Lemma info_supported (h : handle) (msg : string) (s : trace) :
  supported h ->
  info h msg s = (Returned tt, s ++ [entry h (INFO, msg)]).
Proof.
  destruct h; simpl; intros Hs; [reflexivity | reflexivity | contradiction].
Qed.

Lemma error_supported (h : handle) (msg : string) (s : trace) :
  supported h ->
  error h msg s = (Returned tt, s ++ [entry h (ERROR, msg)]).
Proof.
  destruct h; simpl; intros Hs; [reflexivity | reflexivity | contradiction].
Qed.

(** What one call of the wrapper does, read off the outcome of the
    target on the trace that already holds the start record. *)
Lemma wrapper_run (h : handle) (fn : callable) (args : list value)
  (kwargs : list (string * value)) (s : trace) :
  supported h ->
  wrapper h fn args kwargs s =
  match __call__ fn args kwargs (s ++ [entry h (start_record fn args kwargs)]) with
  | (Returned r, s2) => (Returned r, s2 ++ [entry h (success_record fn r)])
  | (Raised e, s2) =>
      if isinstance e Exception
      then (Raised e, s2 ++ [entry h (error_record fn e)])
      else (Raised e, s2)
  end.
Proof.
  intros Hs. unfold wrapper, bind, try_except.
  rewrite (info_supported h _ s Hs). fold (start_record fn args kwargs).
  destruct (__call__ fn args kwargs _) as [[r | e] s2].
  - rewrite (info_supported h _ s2 Hs). reflexivity.
  - destruct (isinstance e Exception); [| reflexivity].
    rewrite (error_supported h _ s2 Hs). reflexivity.
Qed.








(** C7. Default-sink equivalence: [logger] without [handle] is [logger]
    with [sys.stdout], a writer; in both decoration styles the wrapped
    callable is the wrapper bound to the standard-output writer. *)
Theorem default_sink_equivalence (func : option callable) (fn : callable)
  (s : trace) :
  logger func None = logger func (Some (Writer Stdout)) /\
  supported (Writer Stdout) /\
  (exists w, logger (Some fn) None s = (Returned (Wrapped w), s) /\
             __name__ w = __name__ fn /\
             __call__ w = wrapper (Writer Stdout) fn) /\
  (exists d, logger None None s = (Returned (Decorator d), s) /\
             d fn s = (Returned {| __name__ := __name__ fn;
                                   __call__ := wrapper (Writer Stdout) fn |}, s)).
Proof.
  split; [reflexivity |]. split; [exact I |]. split.
  - eexists. split; [reflexivity |]. split; reflexivity.
  - eexists. split; reflexivity.
Qed.


End DecoratorFacts.

(** * Properties of [get_currencies] *)

Lemma dict_membership (items : list (string * value)) (key : string) :
  existsb (String.eqb key) (dict_keys items)
  = match dict_get items key with Some _ => true | None => false end.
Proof.
  induction items as [| [k v] rest IH]; simpl; [reflexivity |].
  destruct (String.eqb key k); [reflexivity | exact IH].
Qed.

Lemma dict_get_set_same (items : list (string * value)) (key : string)
  (v : value) :
  dict_get (dict_set items key v) key = Some v.
Proof.
  induction items as [| [k x] rest IH]; simpl.
  - now rewrite String.eqb_refl.
  - destruct (String.eqb key k) eqn:E; simpl; rewrite E; [reflexivity | exact IH].
Qed.

Lemma dict_get_set_other (items : list (string * value)) (key c : string)
  (v : value) :
  c <> key -> dict_get (dict_set items key v) c = dict_get items c.
Proof.
  intros Hne. induction items as [| [k x] rest IH]; simpl.
  - destruct (String.eqb c key) eqn:E; [| reflexivity].
    apply String.eqb_eq in E. contradiction.
  - destruct (String.eqb key k) eqn:E; simpl.
    + apply String.eqb_eq in E. subst k.
      destruct (String.eqb c key) eqn:E'; [| reflexivity].
      apply String.eqb_eq in E'. contradiction.
    + now rewrite IH.
Qed.

Lemma dict_keys_set (items : list (string * value)) (key c : string)
  (v : value) :
  In c (dict_keys (dict_set items key v)) <-> c = key \/ In c (dict_keys items).
Proof.
  induction items as [| [k x] rest IH]; simpl.
  - intuition congruence.
  - destruct (String.eqb key k) eqn:E; simpl.
    + apply String.eqb_eq in E. subst k. intuition congruence.
    + rewrite IH. intuition congruence.
Qed.

Lemma dict_keys_set_NoDup (items : list (string * value)) (key : string)
  (v : value) :
  NoDup (dict_keys items) -> NoDup (dict_keys (dict_set items key v)).
Proof.
  induction items as [| [k x] rest IH]; simpl; intros Hnd.
  - constructor; [intros [] | constructor].
  - destruct (String.eqb key k) eqn:E; simpl; [exact Hnd |].
    inversion Hnd as [| ? ? Hnotin Hrest]; subst. constructor.
    + intros Hin. apply dict_keys_set in Hin. destruct Hin as [-> | Hin].
      * now rewrite String.eqb_refl in E.
      * contradiction.
    + apply IH. exact Hrest.
Qed.

Lemma dict_set_all_floats (items : list (string * value)) (key : string)
  (f : spec_float) :
  all_floats items -> all_floats (dict_set items key (VFloat f)).
Proof.
  unfold all_floats.
  induction items as [| [k x] rest IH]; simpl; intros Hall.
  - constructor; [now exists f | constructor].
  - inversion Hall as [| ? ? Hx Hrest]; subst.
    destruct (String.eqb key k); constructor; simpl; eauto.
Qed.

Lemma float_of_int_finite (z : Z) (s : trace) :
  float_of_int z s
  = match finite_double z with
    | Some f => (Returned f, s)
    | None =>
        (Raised (new_exc OverflowError "int too large to convert to float"), s)
    end.
Proof.
  unfold float_of_int, finite_double. destruct (double_of_Z z); reflexivity.
Qed.

(** Runs the monadic plumbing and the builtin operations, leaving string
    comparisons and dict lookups folded. *)
Ltac py_step :=
  cbv beta iota delta
    [bind try_except ret raise negb fst snd
     py_in py_getitem py_get response_json].

Ltac monad_step :=
  cbv beta iota delta [bind try_except ret raise negb response_json].

Section CurrencyFacts.
Context `{Repr}.
Variable requests_get : string -> http_reply.

(** One turn of the loop for a code whose rate the payload quotes. *)
Lemma for_codes_quoted (valute : value) (code : string) (rest : list string)
  (result : list (string * value)) (s : trace) (f : spec_float) :
  quoted_rate valute code = Some f ->
  for_codes valute (code :: rest) result s
  = for_codes valute rest (dict_set result code (VFloat f)) s.
Proof.
  unfold quoted_rate. intros Hq.
  destruct valute as [| | | | | | | rates]; try discriminate.
  simpl. unfold bind at 1. simpl. rewrite dict_membership.
  destruct (dict_get rates code) as [entry |] eqn:Ecode; [| discriminate].
  simpl. unfold bind at 1. simpl. rewrite ?Ecode. simpl.
  destruct entry as [| | | | | | | fields]; try discriminate.
  unfold bind at 1. simpl.
  destruct (dict_get fields "Value") as [number |]; [| discriminate].
  destruct number as [| b | z | g | | | |]; try discriminate; simpl;
    unfold bind at 1; simpl.
  - rewrite float_of_int_finite, Hq. reflexivity.
  - rewrite float_of_int_finite, Hq. reflexivity.
  - injection Hq as ->. reflexivity.
Qed.

(** One turn of the loop for a code whose rate the payload does not quote
    raises, leaving the trace as it was. *)
Lemma for_codes_unquoted (valute : value) (code : string) (rest : list string)
  (result : list (string * value)) (s : trace) :
  quoted_rate valute code = None ->
  exists e, for_codes valute (code :: rest) result s = (Raised e, s).
Proof.
  unfold quoted_rate. intros Hq.
  destruct valute as [| | | | text | xs | xs | rates]; simpl;
    try (eexists; reflexivity).
  - unfold bind at 1. simpl. destruct (substring_of code text); simpl;
      eexists; reflexivity.
  - unfold bind at 1. simpl. destruct (existsb (str_equals code) xs); simpl;
      eexists; reflexivity.
  - unfold bind at 1. simpl. destruct (existsb (str_equals code) xs); simpl;
      eexists; reflexivity.
  - unfold bind at 1. simpl. rewrite dict_membership.
    destruct (dict_get rates code) as [entry |] eqn:Ecode; simpl;
      [| eexists; reflexivity].
    unfold bind at 1. simpl. rewrite ?Ecode. simpl.
    destruct entry as [| | | | | | | fields];
      try (eexists; reflexivity).
    unfold bind at 1. simpl.
    destruct (dict_get fields "Value") as [number |];
      [| eexists; reflexivity].
    destruct number as [| b | z | g | | | |]; simpl;
      try (eexists; reflexivity); try discriminate;
      unfold bind at 1; simpl; rewrite float_of_int_finite, Hq;
      eexists; reflexivity.
Qed.

Lemma for_codes_fill (valute : value) (pre rest : list string)
  (result : list (string * value)) (s : trace) :
  Forall (quoted valute) pre ->
  for_codes valute (pre ++ rest) result s
  = for_codes valute rest (fill valute pre result) s.
Proof.
  revert result. induction pre as [| code pre IH]; intros result Hall.
  - reflexivity.
  - inversion Hall as [| ? ? Hcode Hpre]; subst.
    destruct (quoted_rate valute code) as [f |] eqn:Eq; [| contradiction].
    rewrite <- app_comm_cons, (for_codes_quoted _ _ _ _ _ f Eq).
    simpl. rewrite Eq. apply IH. exact Hpre.
Qed.

Lemma for_codes_returns (valute : value) (codes : list string)
  (result r : list (string * value)) (s s' : trace) :
  for_codes valute codes result s = (Returned r, s') ->
  Forall (quoted valute) codes /\
  r = fill valute codes result /\ s' = s.
Proof.
  revert result. induction codes as [| code rest IH]; intros result Hrun.
  - injection Hrun as <- <-. repeat split. constructor.
  - destruct (quoted_rate valute code) as [f |] eqn:Eq.
    + rewrite (for_codes_quoted _ _ _ _ _ f Eq) in Hrun.
      destruct (IH _ Hrun) as (Hall & -> & ->).
      split; [| split].
      * constructor; [unfold quoted; congruence | exact Hall].
      * simpl. now rewrite Eq.
      * reflexivity.
    + destruct (for_codes_unquoted valute code rest result s Eq) as [e He].
      rewrite He in Hrun. discriminate.
Qed.

Lemma fill_keys (valute : value) (codes : list string)
  (result : list (string * value)) (c : string) :
  Forall (quoted valute) codes ->
  In c (dict_keys (fill valute codes result))
  <-> In c codes \/ In c (dict_keys result).
Proof.
  revert result. induction codes as [| code rest IH]; intros result Hall.
  - simpl. tauto.
  - inversion Hall as [| ? ? Hcode Hrest]; subst. simpl.
    destruct (quoted_rate valute code) as [f |] eqn:Eq; [| contradiction].
    rewrite (IH _ Hrest), dict_keys_set. intuition congruence.
Qed.

Lemma fill_NoDup (valute : value) (codes : list string)
  (result : list (string * value)) :
  NoDup (dict_keys result) -> NoDup (dict_keys (fill valute codes result)).
Proof.
  revert result. induction codes as [| code rest IH]; intros result Hnd.
  - exact Hnd.
  - simpl. destruct (quoted_rate valute code); apply IH;
      [apply dict_keys_set_NoDup |]; exact Hnd.
Qed.

Lemma fill_all_floats (valute : value) (codes : list string)
  (result : list (string * value)) :
  all_floats result -> all_floats (fill valute codes result).
Proof.
  revert result. induction codes as [| code rest IH]; intros result Hall.
  - exact Hall.
  - simpl. destruct (quoted_rate valute code); apply IH;
      [apply dict_set_all_floats |]; exact Hall.
Qed.

Lemma fill_keeps (valute : value) (codes : list string)
  (result : list (string * value)) (c : string) (f : spec_float) :
  quoted_rate valute c = Some f ->
  dict_get result c = Some (VFloat f) ->
  dict_get (fill valute codes result) c = Some (VFloat f).
Proof.
  intros Hq. revert result.
  induction codes as [| code rest IH]; intros result Hget; [exact Hget |].
  simpl. destruct (quoted_rate valute code) as [g |] eqn:Eq; apply IH;
    [| exact Hget].
  destruct (String.eqb c code) eqn:E.
  - apply String.eqb_eq in E. subst code.
    rewrite dict_get_set_same. congruence.
  - rewrite dict_get_set_other; [exact Hget |].
    intros ->. now rewrite String.eqb_refl in E.
Qed.

Lemma fill_get (valute : value) (codes : list string)
  (result : list (string * value)) (c : string) (f : spec_float) :
  In c codes ->
  quoted_rate valute c = Some f ->
  dict_get (fill valute codes result) c = Some (VFloat f).
Proof.
  intros Hin Hq. revert result.
  induction codes as [| code rest IH]; intros result; [destruct Hin |].
  simpl. destruct Hin as [-> | Hin].
  - rewrite Hq. apply fill_keeps; [exact Hq | apply dict_get_set_same].
  - destruct (quoted_rate valute code); apply IH; exact Hin.
Qed.

(** A fetch that returns has received a JSON object whose ["Valute"]
    quotes every requested code, and returns the dict of these rates. *)
Lemma get_currencies_returns (codes : list string) (url : option string)
  (s s' : trace) (v : value) :
  get_currencies requests_get codes url s = (Returned v, s') ->
  exists fields valute,
    requests_get (resolve_url url)
      = Response (Returned (VDict fields)) /\
    dict_get fields "Valute" = Some valute /\
    Forall (quoted valute) codes /\
    v = VDict (fill valute codes []) /\ s' = s.
Proof.
  unfold get_currencies.
  unfold send_request.
  destruct (requests_get (resolve_url url)) as [e | [data | e]]; py_step.
  - destruct (isinstance e RequestException); py_step; discriminate.
  - destruct data as [| | | | text | xs | xs | fields]; py_step;
      try discriminate.
    + destruct (substring_of "Valute" text); py_step; discriminate.
    + destruct (existsb (str_equals "Valute") xs); py_step; discriminate.
    + destruct (existsb (str_equals "Valute") xs); py_step; discriminate.
    + rewrite dict_membership.
      destruct (dict_get fields "Valute") as [valute |] eqn:Ev; py_step;
        [| discriminate].
      destruct (for_codes valute codes [] s) as [[r | e] s2] eqn:Eloop;
        [| discriminate].
      intros Hret. injection Hret as <- <-.
      destruct (for_codes_returns _ _ _ _ _ _ Eloop) as (Hall & -> & ->).
      exists fields, valute. repeat split; assumption.
  - destruct (isinstance e ValueError); py_step; discriminate.
Qed.


(** C10. A fetch that returns gives a dict whose keys are exactly the
    requested codes, each key once, whose values are all floats, namely the
    float of the rate the payload quotes for the code; and a boolean rate
    passes the numeric check, giving 1.0 for [True] and 0.0 for [False]. *)
Theorem returned_mapping_shape (codes : list string) (url : option string)
  (s : trace) :
  (forall v s',
      get_currencies requests_get codes url s = (Returned v, s') ->
      exists result fields valute,
        v = VDict result /\
        NoDup (dict_keys result) /\
        (forall c, In c (dict_keys result) <-> In c codes) /\
        all_floats result /\
        requests_get (resolve_url url) = Response (Returned (VDict fields)) /\
        dict_get fields "Valute" = Some valute /\
        (forall c, In c codes ->
                   exists f, quoted_rate valute c = Some f /\
                             dict_get result c = Some (VFloat f))) /\
  (forall code b,
      requests_get (resolve_url url)
      = Response (Returned
                    (VDict [("Valute",
                             VDict [(code, VDict [("Value", VBool b)])])])) ->
      get_currencies requests_get [code] url s
      = (Returned (VDict [(code, VFloat (if b then one else zero))]), s)).
Proof.
  split.
  - intros v s' Hrun.
    destruct (get_currencies_returns codes url s s' v Hrun)
      as (fields & valute & Hreq & Hv & Hall & -> & ->).
    exists (fill valute codes []), fields, valute.
    split; [reflexivity |]. split; [apply fill_NoDup; constructor |].
    split; [intros c; rewrite (fill_keys _ _ _ _ Hall); simpl; tauto |].
    split; [apply fill_all_floats; constructor |].
    split; [exact Hreq |]. split; [exact Hv |].
    intros c Hin.
    assert (Hq : quoted valute c) by (eapply Forall_forall; eassumption).
    unfold quoted in Hq.
    destruct (quoted_rate valute c) as [f |] eqn:Eq; [| contradiction].
    exists f. split; [reflexivity |]. now apply fill_get.
  - intros code b Hreq.
    unfold get_currencies, send_request. rewrite Hreq. py_step.
    rewrite dict_membership. cbn [dict_get]. rewrite String.eqb_refl. py_step.
    assert (Hq : quoted_rate (VDict [(code, VDict [("Value", VBool b)])]) code
                 = Some (if b then one else zero)).
    { unfold quoted_rate. cbn [dict_get]. rewrite !String.eqb_refl.
      destruct b; reflexivity. }
    rewrite (for_codes_quoted _ _ _ _ _ _ Hq). reflexivity.
Qed.

End CurrencyFacts.

(** * The scenarios of [tests.py] *)

Example test_logs_success_in_stringio :
  wrapper buffer f_identity [VInt 42] [] []
  = (Returned (VInt 42),
     [(buffer, call_write ("INFO: Calling f with args=(42,), kwargs={}" +:+ LF));
      (buffer, call_write ("INFO: f returned 42" +:+ LF))]).
Proof. reflexivity. Qed.

Example test_logs_error_and_re_raises :
  wrapper buffer bad [] [] []
  = (Raised (new_exc ValueError "test"),
     [(buffer, call_write ("INFO: Calling bad with args=(), kwargs={}" +:+ LF));
      (buffer,
       call_write ("ERROR: Function bad raised ValueError: test" +:+ LF))]).
Proof. reflexivity. Qed.

Example test_returns_correct_data :
  get_currencies (serves (payload (VFloat (double_of_Z 80)))) ["USD"] None []
  = (Returned (VDict [("USD", VFloat (double_of_Z 80))]), []).
Proof. reflexivity. Qed.

Example test_missing_currency_raises_key_error :
  exists e,
    get_currencies (serves (VDict [("Valute", VDict [])])) ["XYZ"] None []
    = (Raised e, []) /\ exc_type e = KeyError.
Proof. eexists. split; reflexivity. Qed.

Example test_no_valute_key_raises_key_error :
  exists e,
    get_currencies (serves (VDict [("Date", VStr "2025-01-01")])) ["USD"] None []
    = (Raised e, []) /\ exc_type e = KeyError.
Proof. eexists. split; reflexivity. Qed.

Example test_invalid_json_raises_value_error :
  exists e,
    get_currencies (fun _ => Response (Raised (Exc ValueError [] None)))
      ["USD"] None []
    = (Raised e, []) /\
    exc_type e = ValueError /\ exc_cause e = Some (Exc ValueError [] None).
Proof. eexists. repeat split; reflexivity. Qed.

(** A decoding failure of the [json] module is a [ValueError] as well. *)
Example undecodable_body_raises_value_error :
  exists e,
    get_currencies
      (fun _ => Response (Raised (new_exc JSONDecodeError "Expecting value")))
      ["USD"] None []
    = (Raised e, []) /\ exc_type e = ValueError.
Proof. eexists. split; reflexivity. Qed.

Example test_non_numeric_rate_raises_type_error :
  exists e,
    get_currencies (serves (payload (VStr "abc"))) ["USD"] None []
    = (Raised e, []) /\ exc_type e = TypeError.
Proof. eexists. split; reflexivity. Qed.

Example test_network_error_raises_connection_error :
  exists e,
    get_currencies offline ["USD"] None [] = (Raised e, []) /\
    exc_type e = ConnectionError.
Proof. eexists. split; reflexivity. Qed.

Example test_logs_connection_error :
  wrapper buffer (call_api offline) [] [] []
  = (Raised (new_exc_from ConnectionError "Ошибка при запросе к API: "
               (Exc RequestException [] None)),
     [(buffer,
       call_write ("INFO: Calling call_api with args=(), kwargs={}" +:+ LF));
      (buffer,
       call_write ("ERROR: Function call_api raised ConnectionError: "
                   +:+ "Ошибка при запросе к API: " +:+ LF))]).
Proof. reflexivity. Qed.

(** * Concrete instances *)










Lemma returned_mapping_shape_witness :
  get_currencies (serves (payload (VBool true))) ["USD"] None []
  = (Returned (VDict [("USD", VFloat one)]), []).
Proof.
  destruct (returned_mapping_shape (serves (payload (VBool true))) ["USD"]
              None []) as [_ Hbool].
  apply (Hbool "USD" true). reflexivity.
Defined.


(** * Further properties of [get_currencies] *)

Section FetchFacts.
Context `{Repr}.
Variable requests_get : string -> http_reply.

(** A code whose rate the payload does not quote stops the loop with one
    and the same failure, whatever follows it and whatever was collected. *)
Lemma for_codes_fails_at (valute : value) (code : string) :
  quoted_rate valute code = None ->
  exists e,
    payload_failure e /\
    forall rest result s,
      for_codes valute (code :: rest) result s = (Raised e, s).
Proof.
  unfold quoted_rate, payload_failure, raises. intros Hq.
  destruct valute as [| b | z | g | text | xs | xs | rates].
  1-4: eexists; split; [| intros; cbn [for_codes]; py_step; reflexivity];
       right; left; reflexivity.
  - destruct (substring_of code text) eqn:E;
      (eexists; split;
       [| intros; cbn [for_codes]; py_step; rewrite E; py_step; reflexivity]).
    + right; left; reflexivity.
    + left; reflexivity.
  - destruct (existsb (str_equals code) xs) eqn:E;
      (eexists; split;
       [| intros; cbn [for_codes]; py_step; rewrite E; py_step; reflexivity]).
    + right; left; reflexivity.
    + left; reflexivity.
  - destruct (existsb (str_equals code) xs) eqn:E;
      (eexists; split;
       [| intros; cbn [for_codes]; py_step; rewrite E; py_step; reflexivity]).
    + right; left; reflexivity.
    + left; reflexivity.
  - destruct (dict_get rates code) as [entry |] eqn:Ecode.
    2: { eexists; split;
           [| intros; cbn [for_codes]; py_step;
              rewrite dict_membership, Ecode; py_step; reflexivity].
         left; reflexivity. }
    destruct entry as [| b | z | g | text | xs | xs | fields].
    1-7: eexists; split;
         [| intros; cbn [for_codes]; py_step;
            rewrite dict_membership, Ecode; py_step; rewrite ?Ecode; py_step;
            reflexivity];
         right; right; left; reflexivity.
    destruct (dict_get fields "Value") as [number |] eqn:Evalue.
    2: { eexists; split;
           [| intros; cbn [for_codes]; py_step;
              rewrite dict_membership, Ecode; py_step; rewrite ?Ecode; py_step;
              rewrite ?Evalue; py_step; reflexivity].
         right; left; reflexivity. }
    destruct number as [| b | z | g | text | xs | xs | items];
      try discriminate Hq.
    1, 4-7: eexists; split;
         [| intros; cbn [for_codes]; py_step;
            rewrite dict_membership, Ecode; py_step; rewrite ?Ecode; py_step;
            rewrite ?Evalue; py_step; reflexivity];
         right; left; reflexivity.
    + eexists; split;
        [| intros; cbn [for_codes]; py_step;
           rewrite dict_membership, Ecode; py_step; rewrite ?Ecode; py_step;
           rewrite ?Evalue; py_step; cbn [isinstance_int_float py_float];
           py_step; rewrite float_of_int_finite, Hq; reflexivity].
      right; right; right; reflexivity.
    + eexists; split;
        [| intros; cbn [for_codes]; py_step;
           rewrite dict_membership, Ecode; py_step; rewrite ?Ecode; py_step;
           rewrite ?Evalue; py_step; cbn [isinstance_int_float py_float];
           py_step; rewrite float_of_int_finite, Hq; reflexivity].
      right; right; right; reflexivity.
Qed.

(** The loop either fills the dict with the rate of every code, or stops
    at the first code without a quoted rate. *)
Lemma for_codes_outcome (valute : value) (codes : list string)
  (result : list (string * value)) :
  (Forall (quoted valute) codes /\
   forall s, for_codes valute codes result s
             = (Returned (fill valute codes result), s)) \/
  (exists pre code post e,
      codes = pre ++ code :: post /\
      Forall (quoted valute) pre /\
      quoted_rate valute code = None /\
      payload_failure e /\
      forall rest result' s,
        for_codes valute (code :: rest) result' s = (Raised e, s)).
Proof.
  revert result. induction codes as [| code rest IH]; intros result.
  - left. split; [constructor | reflexivity].
  - destruct (quoted_rate valute code) as [f |] eqn:Eq.
    + destruct (IH (dict_set result code (VFloat f)))
        as [[Hall Hrun] | (pre & c & post & e & -> & Hpre & Hc & He & Hrun)].
      * left. split; [constructor; [unfold quoted; congruence | exact Hall] |].
        intros s. rewrite (for_codes_quoted _ _ _ _ _ f Eq).
        cbn [fill]. rewrite Eq. apply Hrun.
      * right. exists (code :: pre), c, post, e.
        repeat split; try assumption.
        constructor; [unfold quoted; congruence | exact Hpre].
    + destruct (for_codes_fails_at valute code Eq) as (e & He & Hrun).
      right. exists [], code, rest, e. repeat split; try assumption.
      constructor.
Qed.

Lemma get_currencies_decoded (codes : list string) (url : option string)
  (data : value) :
  requests_get (resolve_url url) = Response (Returned data) ->
  forall s, get_currencies requests_get codes url s
            = read_payload data codes s.
Proof.
  intros Hreq s. unfold get_currencies, read_payload, send_request.
  rewrite Hreq. monad_step. reflexivity.
Qed.

Lemma read_payload_object (fields : list (string * value)) (valute : value)
  (codes : list string) :
  dict_get fields "Valute" = Some valute ->
  forall s, read_payload (VDict fields) codes s
            = match for_codes valute codes [] s with
              | (Returned result, s') => (Returned (VDict result), s')
              | (Raised e, s') => (Raised e, s')
              end.
Proof.
  intros Hv s. unfold read_payload. py_step.
  rewrite dict_membership, Hv. py_step. reflexivity.
Qed.

(** A payload that is not a JSON object is refused, with a [KeyError] or
    a [TypeError] that does not depend on the codes. *)
Lemma read_payload_not_object (data : value) :
  is_dict data = false ->
  exists e,
    (raises KeyError e \/ raises TypeError e) /\
    forall codes s, read_payload data codes s = (Raised e, s).
Proof.
  unfold raises. intros Hd.
  destruct data as [| b | z | g | text | xs | xs | fields];
    try discriminate Hd.
  1-4: eexists; split; [| intros; unfold read_payload; py_step; reflexivity];
       right; reflexivity.
  - destruct (substring_of "Valute" text) eqn:E;
      (eexists; split;
       [| intros; unfold read_payload; py_step; rewrite E; py_step;
          reflexivity]); [right | left]; reflexivity.
  - destruct (existsb (str_equals "Valute") xs) eqn:E;
      (eexists; split;
       [| intros; unfold read_payload; py_step; rewrite E; py_step;
          reflexivity]); [right | left]; reflexivity.
  - destruct (existsb (str_equals "Valute") xs) eqn:E;
      (eexists; split;
       [| intros; unfold read_payload; py_step; rewrite E; py_step;
          reflexivity]); [right | left]; reflexivity.
Qed.

Lemma read_payload_yields (data : value) (codes : list string) :
  yields (read_payload data codes)
    (fun v => exists items, v = VDict items /\ all_floats items)
    payload_failure.
Proof.
  destruct (is_dict data) eqn:Hd.
  - destruct data as [| | | | | | | fields]; try discriminate Hd.
    destruct (dict_get fields "Valute") as [valute |] eqn:Hv.
    + destruct (for_codes_outcome valute codes [])
        as [[Hall Hrun] | (pre & c & post & e & -> & Hpre & Hc & He & Hrun)].
      * exists (Returned (VDict (fill valute codes []))). split.
        -- intros s. rewrite (read_payload_object _ _ _ Hv), Hrun.
           reflexivity.
        -- eexists. split; [reflexivity |].
           apply fill_all_floats. constructor.
      * exists (Raised e). split; [| exact He].
        intros s. rewrite (read_payload_object _ _ _ Hv).
        rewrite (for_codes_fill valute pre (c :: post) [] s Hpre), Hrun.
        reflexivity.
    + eexists. split.
      * intros s. unfold read_payload. py_step.
        rewrite dict_membership, Hv. py_step. reflexivity.
      * left. reflexivity.
  - destruct (read_payload_not_object data Hd) as (e & He & Hrun).
    exists (Raised e). split; [intros s; apply Hrun |].
    unfold payload_failure. tauto.
Qed.

Lemma get_currencies_constant (codes : list string) (url : option string) :
  exists o, forall s, get_currencies requests_get codes url s = (o, s).
Proof.
  destruct (requests_get (resolve_url url)) as [e | [data | e]] eqn:Hreq.
  - destruct (isinstance e RequestException) eqn:Hinst;
      eexists; intros s; unfold get_currencies, send_request;
      rewrite Hreq; monad_step; rewrite Hinst; reflexivity.
  - destruct (read_payload_yields data codes) as (o & Hrun & _).
    exists o. intros s. rewrite (get_currencies_decoded _ _ _ Hreq).
    apply Hrun.
  - destruct (isinstance e ValueError) eqn:Hinst;
      eexists; intros s; unfold get_currencies, send_request;
      rewrite Hreq; monad_step; rewrite Hinst; reflexivity.
Qed.

(** X1. [get_currencies] does no logging: it leaves the sinks as they
    are, and its outcome does not depend on what they have received. *)
Theorem get_currencies_is_silent (codes : list string)
  (url : option string) :
  silent (get_currencies requests_get codes url).
Proof. exact (get_currencies_constant codes url). Qed.

(** X2. The failures of a fetch are exhausted by: [ConnectionError],
    [ValueError], [KeyError], [TypeError], [AttributeError],
    [OverflowError], and whatever the request or the decoding of the body
    raised that was not caught. *)
Theorem fetch_failures_exhausted (codes : list string) (url : option string)
  (s s' : trace) (e : exception) :
  get_currencies requests_get codes url s = (Raised e, s') ->
  raises ConnectionError e \/ raises ValueError e \/ payload_failure e \/
  requests_get (resolve_url url) = RequestFails e \/
  requests_get (resolve_url url) = Response (Raised e).
Proof.
  destruct (requests_get (resolve_url url)) as [e0 | [data | e0]] eqn:Hreq.
  - unfold get_currencies, send_request. rewrite Hreq. monad_step.
    destruct (isinstance e0 RequestException); intros Hrun;
      injection Hrun as <- <-.
    + left. reflexivity.
    + right; right; right; left. reflexivity.
  - rewrite (get_currencies_decoded _ _ _ Hreq).
    destruct (read_payload_yields data codes) as (o & Hrun & Ho).
    rewrite Hrun. intros Heq. injection Heq as -> _.
    right; right; left. exact Ho.
  - unfold get_currencies, send_request. rewrite Hreq. monad_step.
    destruct (isinstance e0 ValueError); intros Hrun;
      injection Hrun as <- <-.
    + right; left. reflexivity.
    + right; right; right; right. reflexivity.
Qed.

(** X3. Only a [RequestException] becomes a [ConnectionError] and only a
    [ValueError] of the decoding is replaced: any other failure of the
    request or of the decoding reaches the caller as it is. *)
Theorem foreign_failures_pass_through (codes : list string)
  (url : option string) (s : trace) (e : exception) :
  (requests_get (resolve_url url) = RequestFails e ->
   isinstance e RequestException = false ->
   get_currencies requests_get codes url s = (Raised e, s)) /\
  (requests_get (resolve_url url) = Response (Raised e) ->
   isinstance e ValueError = false ->
   get_currencies requests_get codes url s = (Raised e, s)).
Proof.
  split; intros Hreq Hinst; unfold get_currencies, send_request;
    rewrite Hreq; monad_step; rewrite Hinst; reflexivity.
Qed.

(** X4. A fetch returns exactly when the payload is a JSON object whose
    ["Valute"] quotes a rate, numeric and within the range of a float,
    for every requested code. *)
Theorem fetch_returns_iff (codes : list string) (url : option string)
  (s : trace) :
  (exists v s', get_currencies requests_get codes url s = (Returned v, s'))
  <->
  (exists fields valute,
      requests_get (resolve_url url) = Response (Returned (VDict fields)) /\
      dict_get fields "Valute" = Some valute /\
      Forall (quoted valute) codes).
Proof.
  split.
  - intros (v & s' & Hrun).
    destruct (get_currencies_returns requests_get codes url s s' v Hrun)
      as (fields & valute & Hreq & Hv & Hall & _).
    exists fields, valute. repeat split; assumption.
  - intros (fields & valute & Hreq & Hv & Hall).
    exists (VDict (fill valute codes [])), s.
    rewrite (get_currencies_decoded _ _ _ Hreq),
      (read_payload_object _ _ _ Hv).
    rewrite <- (app_nil_r codes) at 1.
    rewrite (for_codes_fill valute codes [] [] s Hall). reflexivity.
Qed.

(** X5. A failing fetch fails in the same way when more codes are
    requested after the ones given: the loop stops at the first code it
    cannot serve. *)
Theorem failure_survives_more_codes (codes more : list string)
  (url : option string) (s s' : trace) (e : exception) :
  get_currencies requests_get codes url s = (Raised e, s') ->
  get_currencies requests_get (codes ++ more) url s = (Raised e, s').
Proof.
  destruct (requests_get (resolve_url url)) as [e0 | [data | e0]] eqn:Hreq.
  - unfold get_currencies, send_request. rewrite Hreq. monad_step.
    destruct (isinstance e0 RequestException); intros Hrun; exact Hrun.
  - rewrite !(get_currencies_decoded _ _ _ Hreq).
    destruct (is_dict data) eqn:Hd.
    + destruct data as [| | | | | | | fields]; try discriminate Hd.
      destruct (dict_get fields "Valute") as [valute |] eqn:Hv.
      * rewrite !(read_payload_object _ _ _ Hv).
        destruct (for_codes_outcome valute codes [])
          as [[Hall Hrun] | (pre & c & post & e1 & -> & Hpre & Hc & He & Hrun)].
        -- rewrite Hrun. discriminate.
        -- rewrite <- app_assoc, <- app_comm_cons.
           rewrite !(for_codes_fill valute pre _ [] s Hpre), !Hrun.
           intros Heq. exact Heq.
      * unfold read_payload. py_step. rewrite dict_membership, Hv. py_step.
        intros Heq. exact Heq.
    + destruct (read_payload_not_object data Hd) as (e1 & _ & Hrun).
      rewrite !Hrun. intros Heq. exact Heq.
  - unfold get_currencies, send_request. rewrite Hreq. monad_step.
    destruct (isinstance e0 ValueError); intros Hrun; exact Hrun.
Qed.

Lemma dict_keys_set_order (items : list (string * value)) (key : string)
  (v : value) :
  dict_keys (dict_set items key v) = remember (dict_keys items) key.
Proof.
  unfold remember.
  induction items as [| [k x] rest IH]; cbn [dict_set dict_keys map fst existsb].
  - reflexivity.
  - destruct (String.eqb key k) eqn:E; cbn [orb map fst].
    + reflexivity.
    + fold (dict_keys (dict_set rest key v)). fold (dict_keys rest).
      rewrite IH.
      destruct (existsb (String.eqb key) (dict_keys rest)); reflexivity.
Qed.

Lemma fill_keys_order (valute : value) (codes : list string)
  (result : list (string * value)) :
  Forall (quoted valute) codes ->
  dict_keys (fill valute codes result)
  = fold_left remember codes (dict_keys result).
Proof.
  revert result. induction codes as [| code rest IH]; intros result Hall.
  - reflexivity.
  - inversion Hall as [| ? ? Hcode Hrest]; subst. cbn [fill fold_left].
    destruct (quoted_rate valute code) as [f |] eqn:Eq; [| contradiction].
    rewrite (IH _ Hrest), dict_keys_set_order. reflexivity.
Qed.

(** X6. The returned dict lists the codes in the order of their first
    occurrence in the request; a code requested again keeps its place. *)
Theorem returned_keys_in_request_order (codes : list string)
  (url : option string) (s s' : trace) (v : value) :
  get_currencies requests_get codes url s = (Returned v, s') ->
  exists items, v = VDict items /\ dict_keys items = first_occurrences codes.
Proof.
  intros Hrun.
  destruct (get_currencies_returns requests_get codes url s s' v Hrun)
    as (fields & valute & _ & _ & Hall & -> & _).
  eexists. split; [reflexivity |].
  apply (fill_keys_order valute codes [] Hall).
Qed.

(** X7. When ["Valute"] is present but is not a JSON object, a request
    for no code at all still returns the empty dict, and a request for
    any code fails with a [KeyError] or a [TypeError]. *)
Theorem valute_is_checked_only_by_the_loop
  (fields : list (string * value)) (valute : value) (url : option string)
  (s : trace) :
  requests_get (resolve_url url) = Response (Returned (VDict fields)) ->
  dict_get fields "Valute" = Some valute ->
  is_dict valute = false ->
  get_currencies requests_get [] url s = (Returned (VDict []), s) /\
  forall code rest,
    exists e,
      get_currencies requests_get (code :: rest) url s = (Raised e, s) /\
      (raises KeyError e \/ raises TypeError e).
Proof.
  intros Hreq Hv Hd. split.
  - rewrite (get_currencies_decoded _ _ _ Hreq),
      (read_payload_object _ _ _ Hv). reflexivity.
  - intros code rest.
    rewrite (get_currencies_decoded _ _ _ Hreq),
      (read_payload_object _ _ _ Hv).
    unfold raises.
    destruct valute as [| b | z | g | text | xs | xs | rates];
      try discriminate Hd; cbn [for_codes]; py_step.
    1-4: eexists; split; [reflexivity | right; reflexivity].
    + destruct (substring_of code text); py_step;
        (eexists; split; [reflexivity |]); [right | left]; reflexivity.
    + destruct (existsb (str_equals code) xs); py_step;
        (eexists; split; [reflexivity |]); [right | left]; reflexivity.
    + destruct (existsb (str_equals code) xs); py_step;
        (eexists; split; [reflexivity |]); [right | left]; reflexivity.
Qed.

(** X8. The first requested code whose entry in ["Valute"] is not a JSON
    object makes the fetch fail with an [AttributeError] for the missing
    [get] method. *)
Theorem entry_must_be_an_object (fields rates : list (string * value))
  (pre post : list string) (code : string) (entry : value)
  (url : option string) (s : trace) :
  requests_get (resolve_url url) = Response (Returned (VDict fields)) ->
  dict_get fields "Valute" = Some (VDict rates) ->
  Forall (quoted (VDict rates)) pre ->
  dict_get rates code = Some entry ->
  is_dict entry = false ->
  get_currencies requests_get (pre ++ code :: post) url s
  = (Raised (new_exc AttributeError
               ("'" +:+ type_name entry
                +:+ "' object has no attribute 'get'")), s).
Proof.
  intros Hreq Hv Hpre Hcode Hd.
  rewrite (get_currencies_decoded _ _ _ Hreq), (read_payload_object _ _ _ Hv).
  rewrite (for_codes_fill (VDict rates) pre (code :: post) [] s Hpre).
  cbn [for_codes]. py_step. rewrite dict_membership, Hcode. py_step.
  destruct entry; try discriminate Hd; reflexivity.
Qed.

(** X9. The first requested code whose rate is an integer beyond the
    range of a float makes the fetch fail with an [OverflowError]. *)
Theorem integer_rate_must_fit_a_float (fields rates entry : list (string * value))
  (pre post : list string) (code : string) (z : Z)
  (url : option string) (s : trace) :
  requests_get (resolve_url url) = Response (Returned (VDict fields)) ->
  dict_get fields "Valute" = Some (VDict rates) ->
  Forall (quoted (VDict rates)) pre ->
  dict_get rates code = Some (VDict entry) ->
  dict_get entry "Value" = Some (VInt z) ->
  finite_double z = None ->
  get_currencies requests_get (pre ++ code :: post) url s
  = (Raised (new_exc OverflowError "int too large to convert to float"), s).
Proof.
  intros Hreq Hv Hpre Hcode Hvalue Hbig.
  rewrite (get_currencies_decoded _ _ _ Hreq), (read_payload_object _ _ _ Hv).
  rewrite (for_codes_fill (VDict rates) pre (code :: post) [] s Hpre).
  cbn [for_codes]. py_step. rewrite dict_membership, Hcode. py_step.
  rewrite Hvalue. py_step. cbn [isinstance_int_float py_float]. py_step.
  rewrite float_of_int_finite, Hbig. reflexivity.
Qed.

(** X10. A payload that is not a JSON object never gives a result: the
    fetch fails with a [KeyError] or a [TypeError], whatever the codes. *)
Theorem payload_must_be_an_object (data : value) (codes : list string)
  (url : option string) (s : trace) :
  requests_get (resolve_url url) = Response (Returned data) ->
  is_dict data = false ->
  exists e,
    get_currencies requests_get codes url s = (Raised e, s) /\
    (raises KeyError e \/ raises TypeError e).
Proof.
  intros Hreq Hd.
  destruct (read_payload_not_object data Hd) as (e & He & Hrun).
  exists e. split; [| exact He].
  rewrite (get_currencies_decoded _ _ _ Hreq). apply Hrun.
Qed.

(** What a call of one of the three decorated fetch functions does. *)
Lemma logged_get_currencies_run (h : handle) (name : string)
  (codes : list string) (s : trace) :
  supported h ->
  logged_get_currencies requests_get h name codes s
  = (fst (get_currencies requests_get codes None []),
     s ++ map (entry h)
            (start_record (applied name (get_currencies requests_get codes None))
               [VList (map VStr codes)] []
             :: closing_records
                  (applied name (get_currencies requests_get codes None))
                  (fst (get_currencies requests_get codes None [])))).
Proof.
  intros Hs. unfold logged_get_currencies.
  rewrite (wrapper_run h _ _ _ s Hs). cbn [__call__ applied].
  destruct (get_currencies_constant codes None) as (o & Hrun).
  rewrite !Hrun. cbn [fst]. unfold closing_records.
  destruct o as [r | e]; [| destruct (isinstance e Exception)];
    cbn [map]; rewrite <- ?app_assoc; cbn [app]; rewrite ?app_nil_r;
    reflexivity.
Qed.

(** X12. The three decorated fetch functions of the module return or
    raise what [get_currencies] does for the default URL, and each leaves
    on its own sink (standard output, the module's [StringIO], the
    ["currency_file"] logger) the start record followed by the closing
    record of that outcome. *)
Theorem decorated_fetches (codes : list string) (s : trace) :
  let body := get_currencies requests_get codes None in
  let o := fst (body []) in
  let args := [VList (map VStr codes)] in
  get_currencies_stdout requests_get codes s
  = (o, s ++ map (written Stdout)
               (start_record (applied "get_currencies_stdout" body) args []
                :: closing_records (applied "get_currencies_stdout" body) o))
  /\
  get_currencies_stringio requests_get codes s
  = (o, s ++ map (written (StringIO 0))
               (start_record (applied "get_currencies_stringio" body) args []
                :: closing_records (applied "get_currencies_stringio" body) o))
  /\
  get_currencies_file requests_get codes s
  = (o, s ++ map (logged "currency_file")
               (start_record (applied "get_currencies_file" body) args []
                :: closing_records (applied "get_currencies_file" body) o)).
Proof.
  cbv zeta. repeat split.
  - apply (logged_get_currencies_run (Writer Stdout)). exact I.
  - apply (logged_get_currencies_run module_stream). exact I.
  - apply (logged_get_currencies_run currency_file_logger). exact I.
Qed.

End FetchFacts.

(** * Further properties of the decorator *)

Section StackedFacts.
Context `{Repr}.

(** The two ways of decorating agree: [logger(handle=h)] applied to a
    function gives the callable that [logger(fn, handle=h)] gives, under
    the name of the function, and neither touches the sinks. *)
Lemma decoration_styles_agree (handle_arg : option handle) (fn : callable)
  (s : trace) :
  exists d w,
    logger None handle_arg s = (Returned (Decorator d), s) /\
    d fn s = (Returned w, s) /\
    logger (Some fn) handle_arg s = (Returned (Wrapped w), s) /\
    __name__ w = __name__ fn.
Proof.
  eexists. eexists. repeat split; reflexivity.
Qed.


End StackedFacts.

(** * Properties of [solve_quadratic] *)

Lemma yields_ret {A : Type} (a : A) (P : A -> Prop) (Q : exception -> Prop) :
  P a -> yields (ret a) P Q.
Proof. intros Ha. exists (Returned a). split; [reflexivity | exact Ha]. Qed.

Lemma yields_raise {A : Type} (e : exception) (P : A -> Prop)
  (Q : exception -> Prop) :
  Q e -> yields (raise e) P Q.
Proof. intros He. exists (Raised e). split; [reflexivity | exact He]. Qed.

Lemma yields_bind {A B : Type} (m : M A) (k : A -> M B)
  (P : A -> Prop) (Q : exception -> Prop)
  (P' : B -> Prop) (Q' : exception -> Prop) :
  yields m P Q ->
  (forall e, Q e -> Q' e) ->
  (forall a, P a -> yields (k a) P' Q') ->
  yields (bind m k) P' Q'.
Proof.
  intros (o & Hrun & Ho) HQ Hk. destruct o as [a | e].
  - destruct (Hk a Ho) as (o' & Hrun' & Ho').
    exists o'. split; [| exact Ho'].
    intros s. unfold bind. rewrite Hrun. apply Hrun'.
  - exists (Raised e). split; [| apply HQ, Ho].
    intros s. unfold bind. rewrite Hrun. reflexivity.
Qed.

Lemma float_of_int_yields (z : Z) :
  yields (float_of_int z) anything arithmetic_failure.
Proof.
  unfold float_of_int.
  destruct (double_of_Z z);
    first [ apply yields_ret; exact I
          | apply yields_raise; right; left; reflexivity ].
Qed.

Lemma to_double_yields (n : number) :
  yields (to_double n) anything arithmetic_failure.
Proof.
  destruct n as [z | f]; [apply float_of_int_yields |].
  apply yields_ret. exact I.
Qed.

Lemma arith_yields (op : string) (on_ints : Z -> Z -> M value)
  (on_doubles : spec_float -> spec_float -> M value) (P : value -> Prop)
  (x y : value) :
  (forall a b, yields (on_ints a b) P arithmetic_failure) ->
  (forall f g, yields (on_doubles f g) P arithmetic_failure) ->
  yields (arith op on_ints on_doubles x y) P arithmetic_failure.
Proof.
  intros Hints Hdoubles. unfold arith.
  destruct (as_number x) as [[a | f] |]; destruct (as_number y) as [[b | g] |];
    try (apply yields_raise; left; reflexivity);
    try apply Hints;
    (eapply yields_bind; [apply to_double_yields | tauto | intros fx _];
     eapply yields_bind; [apply to_double_yields | tauto | intros fy _];
     apply Hdoubles).
Qed.

Lemma int_truediv_yields (a b : Z) :
  yields (int_truediv a b) is_float arithmetic_failure.
Proof.
  unfold int_truediv.
  destruct (b =? 0)%Z; [apply yields_raise; right; right; reflexivity |].
  destruct (a =? 0)%Z; [apply yields_ret; eexists; reflexivity |].
  destruct (SFdiv_core_binary 53 1024 (Z.abs a) 0 (Z.abs b) 0) as [[q e] l].
  destruct (binary_round_aux 53 1024 _ q e l);
    first [ apply yields_ret; eexists; reflexivity
          | apply yields_raise; right; left; reflexivity ].
Qed.

Lemma float_truediv_yields (x y : spec_float) :
  yields (float_truediv x y) is_float arithmetic_failure.
Proof.
  unfold float_truediv. destruct (SFeqb y (S754_zero false)).
  - apply yields_raise. right; right. reflexivity.
  - apply yields_ret. eexists. reflexivity.
Qed.

Lemma py_truediv_yields (x y : value) :
  yields (py_truediv x y) is_float arithmetic_failure.
Proof.
  apply arith_yields; [apply int_truediv_yields | apply float_truediv_yields].
Qed.

Lemma py_mul_yields (x y : value) :
  yields (py_mul x y) anything arithmetic_failure.
Proof. apply arith_yields; intros; apply yields_ret; exact I. Qed.

Lemma py_add_yields (x y : value) :
  yields (py_add x y) anything arithmetic_failure.
Proof. apply arith_yields; intros; apply yields_ret; exact I. Qed.

Lemma py_sub_yields (x y : value) :
  yields (py_sub x y) anything arithmetic_failure.
Proof. apply arith_yields; intros; apply yields_ret; exact I. Qed.

Lemma py_neg_yields (x : value) :
  yields (py_neg x) anything arithmetic_failure.
Proof.
  unfold py_neg. destruct (as_number x) as [[z | f] |];
    first [ apply yields_ret; exact I
          | apply yields_raise; left; reflexivity ].
Qed.

Lemma py_eq_zero_yields (x : value) :
  yields (py_eq_zero x) anything arithmetic_failure.
Proof.
  unfold py_eq_zero. destruct (as_number x) as [[z | f] |];
    apply yields_ret; exact I.
Qed.

Lemma py_lt_zero_yields (x : value) :
  yields (py_lt_zero x) anything arithmetic_failure.
Proof.
  unfold py_lt_zero. destruct (as_number x) as [[z | f] |];
    first [ apply yields_ret; exact I
          | apply yields_raise; left; reflexivity ].
Qed.

Lemma check_numbers_yields (params : list (string * value)) :
  yields (check_numbers params) anything arithmetic_failure.
Proof.
  induction params as [| [name val] rest IH]; cbn [check_numbers].
  - apply yields_ret. exact I.
  - destruct (isinstance_int_float val); cbn [negb]; [exact IH |].
    apply yields_raise. left. reflexivity.
Qed.

(** ** Rounding an integer to a double never gives zero *)

Section Rounding.
Local Open Scope Z_scope.

Lemma digits2_pos_size (p : positive) : digits2_pos p = Pos.size p.
Proof. induction p; simpl; congruence. Qed.

Lemma digits2_bounds (p : positive) :
  2 ^ (Z.pos (digits2_pos p) - 1) <= Z.pos p < 2 ^ Z.pos (digits2_pos p).
Proof.
  rewrite digits2_pos_size. split.
  - pose proof (Pos.size_le p) as Hle.
    apply Pos2Z.pos_le_pos in Hle. rewrite Pos2Z.inj_pow in Hle.
    change (Z.pos p~0) with (2 * Z.pos p) in Hle.
    replace (Z.pos (Pos.size p)) with (1 + (Z.pos (Pos.size p) - 1)) in Hle by lia.
    rewrite Z.pow_add_r in Hle by lia. change (2 ^ 1) with 2 in Hle. lia.
  - pose proof (Pos.size_gt p) as Hgt.
    apply Pos2Z.pos_lt_pos in Hgt. now rewrite Pos2Z.inj_pow in Hgt.
Qed.

Lemma shr_1_m (r : shr_record) :
  0 <= shr_m r -> shr_m (shr_1 r) = shr_m r / 2.
Proof.
  destruct r as [m rb sb]. simpl. intros Hm.
  destruct m as [| p | p]; [reflexivity | | lia].
  rewrite <- Z.div2_div. destruct p; reflexivity.
Qed.

Lemma iter_shr_1_m (k : positive) (r : shr_record) :
  0 <= shr_m r -> shr_m (iter_pos shr_1 k r) = shr_m r / 2 ^ Z.pos k.
Proof.
  revert r. induction k as [k IH | k IH |]; intros r Hm; simpl iter_pos.
  - assert (H1 : 0 <= shr_m (shr_1 r)).
    { rewrite shr_1_m by assumption. apply Z.div_pos; lia. }
    assert (H2 : 0 <= shr_m (iter_pos shr_1 k (shr_1 r))).
    { rewrite IH by assumption. apply Z.div_pos; [assumption |].
      apply Z.pow_pos_nonneg; lia. }
    rewrite IH, IH, shr_1_m by assumption.
    rewrite !Z.div_div by (try apply Z.pow_pos_nonneg; lia).
    f_equal.
    replace (Z.pos k~1) with (1 + Z.pos k + Z.pos k) by lia.
    rewrite !Z.pow_add_r by lia. change (2 ^ 1) with 2. lia.
  - assert (H2 : 0 <= shr_m (iter_pos shr_1 k r)).
    { rewrite IH by assumption. apply Z.div_pos; [assumption |].
      apply Z.pow_pos_nonneg; lia. }
    rewrite IH, IH by assumption.
    rewrite !Z.div_div by (try apply Z.pow_pos_nonneg; lia).
    f_equal.
    replace (Z.pos k~0) with (Z.pos k + Z.pos k) by lia.
    rewrite !Z.pow_add_r by lia. lia.
  - rewrite shr_1_m by assumption. reflexivity.
Qed.

Lemma shr_record_of_loc_m (m : Z) (l : location) :
  shr_m (shr_record_of_loc m l) = m.
Proof. destruct l as [| []]; reflexivity. Qed.

(** A mantissa of at least 53 bits keeps at least 53 bits through the
    shift to the canonical exponent. *)
Lemma shr_fexp_large (m e : Z) (l : location) :
  2 ^ 52 <= m -> -1074 <= e ->
  2 ^ 52 <= shr_m (fst (shr_fexp 53 1024 m e l)) /\
  -1074 <= snd (shr_fexp 53 1024 m e l).
Proof.
  intros Hm He. destruct m as [| p | p]; try (exfalso; lia).
  unfold shr_fexp, shr, fexp, emin. cbn [Zdigits2].
  pose proof (digits2_bounds p) as [Hlow Hhigh].
  set (dd := Z.pos (digits2_pos p)) in *.
  assert (Hdd : 53 <= dd).
  { destruct (Z.le_gt_cases 53 dd) as [Hle | Hgt]; [exact Hle |].
    exfalso. assert (2 ^ dd <= 2 ^ 52) by (apply Z.pow_le_mono_r; lia). lia. }
  replace (Z.max (dd + e - 53) (3 - 1024 - 53) - e) with (dd - 53) by lia.
  destruct (dd - 53) as [| k | k] eqn:Ek; cbn [fst snd].
  - rewrite shr_record_of_loc_m. lia.
  - rewrite iter_shr_1_m by (rewrite shr_record_of_loc_m; lia).
    rewrite shr_record_of_loc_m. split; [| lia].
    apply Z.div_le_lower_bound; [apply Z.pow_pos_nonneg; lia |].
    rewrite <- Z.pow_add_r by lia.
    replace (Z.pos k + 52) with (dd - 1) by lia. exact Hlow.
  - rewrite shr_record_of_loc_m. lia.
Qed.

Lemma round_nearest_even_ge (m : Z) (l : location) :
  m <= round_nearest_even m l.
Proof.
  unfold round_nearest_even. destruct l as [| []]; try lia.
  destruct (Z.even m); lia.
Qed.

Lemma binary_round_aux_large (sx : bool) (m e : Z) (l : location) :
  2 ^ 52 <= m -> -1074 <= e ->
  forall sign, binary_round_aux 53 1024 sx m e l <> S754_zero sign.
Proof.
  intros Hm He sign. unfold binary_round_aux.
  pose proof (shr_fexp_large m e l Hm He) as [H1 H1e].
  destruct (shr_fexp 53 1024 m e l) as [r1 e1]. cbn [fst snd] in H1, H1e.
  pose proof (round_nearest_even_ge (shr_m r1) (loc_of_shr_record r1)) as Hr.
  pose proof (shr_fexp_large (round_nearest_even (shr_m r1) (loc_of_shr_record r1))
                e1 loc_Exact ltac:(lia) H1e) as [H2 _].
  destruct (shr_fexp 53 1024 _ e1 loc_Exact) as [r2 e2]. cbn [fst] in H2.
  destruct (shr_m r2) as [| p | p]; try (exfalso; lia).
  destruct (e2 <=? 1024 - 53); discriminate.
Qed.

Lemma iter_xO_pow (m k : positive) :
  Z.pos (Pos.iter xO m k) = Z.pos m * 2 ^ Z.pos k.
Proof.
  rewrite (Pos.iter_swap_gen _ _ Z.pos xO (Z.mul 2)) by reflexivity.
  change (Pos.iter (Z.mul 2) (Z.pos m) k) with (Z.shiftl (Z.pos m) (Z.pos k)).
  apply Z.shiftl_mul_pow2. lia.
Qed.

Lemma binary_round_nonzero (sx : bool) (m : positive) (sign : bool) :
  binary_round 53 1024 sx m 0 <> S754_zero sign.
Proof.
  unfold binary_round, shl_align, fexp, emin.
  pose proof (digits2_bounds m) as [Hlow Hhigh].
  set (dd := Z.pos (digits2_pos m)) in *.
  assert (Hdd : 1 <= dd) by (unfold dd; lia).
  replace (Z.max (dd + 0 - 53) (3 - 1024 - 53) - 0) with (dd - 53) by lia.
  replace (Z.max (dd + 0 - 53) (3 - 1024 - 53)) with (dd - 53) by lia.
  destruct (dd - 53) as [| k | k] eqn:Ek.
  - apply binary_round_aux_large; [| lia].
    replace 52 with (dd - 1) by lia. exact Hlow.
  - apply binary_round_aux_large; [| lia].
    transitivity (2 ^ (dd - 1)); [apply Z.pow_le_mono_r; lia | exact Hlow].
  - apply binary_round_aux_large; [| lia].
    rewrite iter_xO_pow.
    replace 52 with ((dd - 1) + Z.pos k) by lia.
    rewrite Z.pow_add_r by lia.
    apply Z.mul_le_mono_nonneg_r; [apply Z.pow_nonneg; lia | exact Hlow].
Qed.

Lemma double_of_Z_nonzero (z : Z) (sign : bool) :
  z <> 0 -> double_of_Z z <> S754_zero sign.
Proof.
  intros Hz. unfold double_of_Z, binary_normalize.
  destruct z as [| m | m]; [contradiction | |]; apply binary_round_nonzero.
Qed.

End Rounding.

Section QuadraticFacts.
Variable libm_pow : spec_float -> spec_float -> spec_float.

Lemma py_pow_yields (x : value) :
  yields (py_pow_half libm_pow x) is_float arithmetic_failure.
Proof.
  unfold py_pow_half. destruct (as_number x) as [n |].
  - eapply yields_bind; [apply to_double_yields | tauto | intros fx _].
    apply yields_ret. eexists. reflexivity.
  - apply yields_raise. left. reflexivity.
Qed.

Ltac then_ lemma :=
  eapply yields_bind;
  [apply lemma | unfold quadratic_failure; tauto | intros ? ?].

Lemma solve_quadratic_yields (a b c : value) :
  yields (solve_quadratic libm_pow a b c) roots quadratic_failure.
Proof.
  unfold solve_quadratic.
  then_ check_numbers_yields. then_ py_eq_zero_yields.
  match goal with z : bool |- _ => destruct z end.
  { apply yields_raise. left. reflexivity. }
  then_ py_mul_yields. then_ py_mul_yields. then_ py_mul_yields.
  then_ py_sub_yields. then_ py_lt_zero_yields.
  match goal with z : bool |- _ => destruct z end.
  { apply yields_ret. left. reflexivity. }
  then_ py_eq_zero_yields.
  match goal with z : bool |- _ => destruct z end.
  - then_ py_neg_yields. then_ py_mul_yields. then_ py_truediv_yields.
    apply yields_ret. right; left.
    match goal with Hf : is_float _ |- _ => destruct Hf as [f ->] end.
    exists f. reflexivity.
  - then_ py_pow_yields. then_ py_neg_yields. then_ py_add_yields.
    then_ py_mul_yields. then_ py_truediv_yields.
    then_ py_neg_yields. then_ py_sub_yields.
    then_ py_mul_yields. then_ py_truediv_yields.
    apply yields_ret. right; right.
    repeat match goal with Hf : is_float _ |- _ => destruct Hf as [? ->] end.
    eexists. eexists. reflexivity.
Qed.

(** X13. [solve_quadratic] does no logging; when it returns, it returns
    [None], a tuple of one float or a tuple of two floats; when it fails,
    the failure is a [ValueError], a [TypeError], an [OverflowError] or a
    [ZeroDivisionError]. *)
Theorem quadratic_outcomes (a b c : value) :
  yields (solve_quadratic libm_pow a b c) roots quadratic_failure.
Proof. exact (solve_quadratic_yields a b c). Qed.

(** X14. The coefficients are checked in the order a, b, c: the first one
    that is neither an int nor a float is reported by name in a
    [TypeError], before anything is computed. *)
Theorem first_non_number_is_reported (a b c : value) (s : trace) :
  (isinstance_int_float a = false ->
   solve_quadratic libm_pow a b c s
   = (Raised (new_exc TypeError "Параметр 'a' должен быть числом"), s)) /\
  (isinstance_int_float a = true ->
   isinstance_int_float b = false ->
   solve_quadratic libm_pow a b c s
   = (Raised (new_exc TypeError "Параметр 'b' должен быть числом"), s)) /\
  (isinstance_int_float a = true ->
   isinstance_int_float b = true ->
   isinstance_int_float c = false ->
   solve_quadratic libm_pow a b c s
   = (Raised (new_exc TypeError "Параметр 'c' должен быть числом"), s)).
Proof.
  repeat split; intros; unfold solve_quadratic; unfold bind at 1;
    cbn [check_numbers];
    repeat match goal with
           | Hv : isinstance_int_float _ = _ |- _ => rewrite Hv; clear Hv
           end; reflexivity.
Qed.

(** X15. With three numbers, a leading coefficient equal to zero (the int
    0, [False], 0.0 or -0.0) is refused with a [ValueError]. *)
Theorem zero_leading_coefficient_is_refused (a b c : value) (s : trace) :
  a = VInt 0 \/ a = VBool false \/ (exists sign, a = VFloat (S754_zero sign)) ->
  isinstance_int_float b = true ->
  isinstance_int_float c = true ->
  solve_quadratic libm_pow a b c s
  = (Raised (new_exc ValueError "Коэффициент 'a' не может быть нулем"), s).
Proof.
  intros Ha Hb Hc. unfold solve_quadratic. unfold bind at 1.
  cbn [check_numbers].
  destruct Ha as [-> | [-> | [sign ->]]];
    cbn [isinstance_int_float negb]; rewrite Hb, Hc; reflexivity.
Qed.

Lemma as_int_number (x : value) (z : Z) :
  as_int x = Some z -> as_number x = Some (NInt z).
Proof.
  unfold as_int. destruct (as_number x) as [[n | f] |]; congruence.
Qed.

Lemma as_int_isinstance (x : value) (z : Z) :
  as_int x = Some z -> isinstance_int_float x = true.
Proof. destruct x; cbn; congruence. Qed.

Lemma arith_ints (op : string) (on_ints : Z -> Z -> M value)
  (on_doubles : spec_float -> spec_float -> M value) (x y : value) (a b : Z) :
  as_int x = Some a -> as_int y = Some b ->
  arith op on_ints on_doubles x y = on_ints a b.
Proof.
  intros Hx Hy. unfold arith.
  now rewrite (as_int_number _ _ Hx), (as_int_number _ _ Hy).
Qed.

Lemma py_mul_ints (x y : value) (a b : Z) (s : trace) :
  as_int x = Some a -> as_int y = Some b ->
  py_mul x y s = (Returned (VInt (a * b)), s).
Proof. intros Hx Hy. unfold py_mul. now rewrite (arith_ints _ _ _ _ _ _ _ Hx Hy). Qed.

Lemma py_sub_ints (x y : value) (a b : Z) (s : trace) :
  as_int x = Some a -> as_int y = Some b ->
  py_sub x y s = (Returned (VInt (a - b)), s).
Proof. intros Hx Hy. unfold py_sub. now rewrite (arith_ints _ _ _ _ _ _ _ Hx Hy). Qed.

Lemma py_truediv_ints (x y : value) (a b : Z) (s : trace) :
  as_int x = Some a -> as_int y = Some b ->
  py_truediv x y s = int_truediv a b s.
Proof. intros Hx Hy. unfold py_truediv. now rewrite (arith_ints _ _ _ _ _ _ _ Hx Hy). Qed.

Lemma py_neg_int (x : value) (a : Z) (s : trace) :
  as_int x = Some a -> py_neg x s = (Returned (VInt (- a)), s).
Proof. intros Hx. unfold py_neg. now rewrite (as_int_number _ _ Hx). Qed.

Lemma py_eq_zero_int (x : value) (a : Z) (s : trace) :
  as_int x = Some a -> py_eq_zero x s = (Returned (a =? 0)%Z, s).
Proof. intros Hx. unfold py_eq_zero. now rewrite (as_int_number _ _ Hx). Qed.

Lemma py_lt_zero_int (x : value) (a : Z) (s : trace) :
  as_int x = Some a -> py_lt_zero x s = (Returned (a <? 0)%Z, s).
Proof. intros Hx. unfold py_lt_zero. now rewrite (as_int_number _ _ Hx). Qed.

Ltac run lemma := unfold bind at 1; rewrite lemma; cbv beta iota.

(** X16. For coefficients that are ints (or bools) with a nonzero leading
    one, the discriminant [b*b - 4*a*c] is computed exactly: a negative
    one gives [None] without fail, a zero one gives the single root
    [-b / (2*a)] as the int division rounds it, and a returned value is
    [None], one root or two roots according to its sign. *)
Theorem integer_coefficients (a b c : value) (za zb zc : Z) (s : trace) :
  as_int a = Some za -> as_int b = Some zb -> as_int c = Some zc ->
  za <> 0%Z ->
  ((zb * zb - 4 * za * zc < 0)%Z ->
   solve_quadratic libm_pow a b c s = (Returned VNone, s)) /\
  ((zb * zb - 4 * za * zc = 0)%Z ->
   solve_quadratic libm_pow a b c s
   = match int_truediv (- zb) (2 * za) s with
     | (Returned root, s1) => (Returned (VTuple [root]), s1)
     | (Raised e, s1) => (Raised e, s1)
     end) /\
  (forall v s',
      solve_quadratic libm_pow a b c s = (Returned v, s') ->
      ((zb * zb - 4 * za * zc < 0)%Z /\ no_root v) \/
      ((zb * zb - 4 * za * zc = 0)%Z /\ one_root v) \/
      ((zb * zb - 4 * za * zc > 0)%Z /\ two_roots v)).
Proof.
  intros Ha Hb Hc Hnz.
  set (d := (zb * zb - 4 * za * zc)%Z).
  assert (Hnonzero : (za =? 0)%Z = false) by now apply Z.eqb_neq.
  split; [intros Hneg | split; [intros Hzero | intros v s']];
    unfold solve_quadratic;
    unfold bind at 1; cbn [check_numbers];
    rewrite (as_int_isinstance _ _ Ha), (as_int_isinstance _ _ Hb),
      (as_int_isinstance _ _ Hc);
    cbv beta iota delta [negb ret];
    run (py_eq_zero_int a za s Ha); rewrite Hnonzero;
    run (py_mul_ints b b zb zb s Hb Hb);
    run (py_mul_ints (VInt 4) a 4 za s eq_refl Ha);
    run (py_mul_ints (VInt (4 * za)) c (4 * za) zc s eq_refl Hc);
    run (py_sub_ints (VInt (zb * zb)) (VInt (4 * za * zc)) _ _ s
           eq_refl eq_refl);
    run (py_lt_zero_int (VInt (zb * zb - 4 * za * zc)) _ s eq_refl);
    fold d.
  - rewrite (proj2 (Z.ltb_lt _ _) Hneg). reflexivity.
  - fold d in Hzero. rewrite Hzero. cbn [Z.ltb Z.compare].
    run (py_eq_zero_int (VInt 0) 0 s eq_refl). cbn [Z.eqb].
    run (py_neg_int b zb s Hb).
    run (py_mul_ints (VInt 2) a 2 za s eq_refl Ha).
    unfold bind at 1.
    rewrite (py_truediv_ints (VInt (- zb)) (VInt (2 * za)) _ _ s
               eq_refl eq_refl).
    destruct (int_truediv (- zb) (2 * za) s) as [[root | e] s1]; reflexivity.
  - destruct (Z.ltb_spec d 0) as [Hneg | Hge].
    + intros Hrun. injection Hrun as <- <-. left. split; [exact Hneg |].
      reflexivity.
    + run (py_eq_zero_int (VInt d) d s eq_refl).
      destruct (Z.eqb_spec d 0) as [Hzero | Hpos]; intros Hrun.
      * right; left. split; [exact Hzero |].
        match type of Hrun with
        | ?m s = _ =>
            assert (Hy : yields m one_root arithmetic_failure)
        end.
        { then_ py_neg_yields. then_ py_mul_yields. then_ py_truediv_yields.
          apply yields_ret.
          match goal with Hf : is_float _ |- _ => destruct Hf as [f ->] end.
          exists f. reflexivity. }
        destruct Hy as (o & Hm & Ho). rewrite Hm in Hrun.
        injection Hrun as -> _. exact Ho.
      * right; right. split; [lia |].
        match type of Hrun with
        | ?m s = _ =>
            assert (Hy : yields m two_roots arithmetic_failure)
        end.
        { then_ py_pow_yields. then_ py_neg_yields. then_ py_add_yields.
          then_ py_mul_yields. then_ py_truediv_yields.
          then_ py_neg_yields. then_ py_sub_yields.
          then_ py_mul_yields. then_ py_truediv_yields.
          apply yields_ret.
          repeat match goal with
                 | Hf : is_float _ |- _ => destruct Hf as [? ->]
                 end.
          eexists. eexists. reflexivity. }
        destruct Hy as (o & Hm & Ho). rewrite Hm in Hrun.
        injection Hrun as -> _. exact Ho.
Qed.

Lemma yields_exactly {A : Type} (m : M A) (a : A) (Q : exception -> Prop) :
  (forall s, m s = (Returned a, s)) -> yields m (eq a) Q.
Proof. intros Hrun. exists (Returned a). split; [exact Hrun | reflexivity]. Qed.

Lemma float_of_int_overflows (z : Z) :
  yields (float_of_int z)
    (fun f => z <> 0%Z -> SFeqb f (S754_zero false) = false)
    (raises OverflowError).
Proof.
  unfold float_of_int.
  destruct (double_of_Z z) as [sign | sign | | sign m e] eqn:Ez;
    first [ apply yields_raise; reflexivity
          | apply yields_ret; intros Hz;
            first [ reflexivity
                  | destruct sign; reflexivity
                  | exfalso; exact (double_of_Z_nonzero z sign Hz Ez) ] ].
Qed.

Lemma py_pow_int (d : Z) :
  yields (py_pow_half libm_pow (VInt d)) is_float (raises OverflowError).
Proof.
  unfold py_pow_half. cbn [as_number to_double].
  eapply yields_bind; [apply float_of_int_overflows | tauto | intros fx _].
  apply yields_ret. eexists. reflexivity.
Qed.

Lemma py_add_int_float (z : Z) (f : spec_float) :
  yields (py_add (VInt z) (VFloat f)) is_float (raises OverflowError).
Proof.
  unfold py_add, arith. cbn [as_number to_double].
  eapply yields_bind; [apply float_of_int_overflows | tauto | intros fx _].
  eapply (yields_bind _ _ anything (raises OverflowError));
    [apply yields_ret; exact I | tauto | intros fy _].
  apply yields_ret. eexists. reflexivity.
Qed.

Lemma py_sub_int_float (z : Z) (f : spec_float) :
  yields (py_sub (VInt z) (VFloat f)) is_float (raises OverflowError).
Proof.
  unfold py_sub, arith. cbn [as_number to_double].
  eapply yields_bind; [apply float_of_int_overflows | tauto | intros fx _].
  eapply (yields_bind _ _ anything (raises OverflowError));
    [apply yields_ret; exact I | tauto | intros fy _].
  apply yields_ret. eexists. reflexivity.
Qed.

Lemma py_truediv_float_int (n : Z) (Hn : n <> 0%Z) (f : spec_float) :
  yields (py_truediv (VFloat f) (VInt n)) is_float (raises OverflowError).
Proof.
  unfold py_truediv, arith. cbn [as_number to_double].
  eapply (yields_bind _ _ anything (raises OverflowError));
    [apply yields_ret; exact I | tauto | intros fx _].
  eapply yields_bind; [apply float_of_int_overflows | tauto | intros fy Hfy].
  unfold float_truediv. rewrite (Hfy Hn).
  apply yields_ret. eexists. reflexivity.
Qed.

Lemma py_truediv_int_int (a b : Z) :
  b <> 0%Z ->
  yields (py_truediv (VInt a) (VInt b)) is_float (raises OverflowError).
Proof.
  intros Hb. unfold py_truediv, arith. cbn [as_number]. unfold int_truediv.
  destruct (Z.eqb_spec b 0) as [Hz | _]; [contradiction |].
  destruct (a =? 0)%Z; [apply yields_ret; eexists; reflexivity |].
  destruct (SFdiv_core_binary 53 1024 (Z.abs a) 0 (Z.abs b) 0) as [[q e] l].
  destruct (binary_round_aux 53 1024 _ q e l);
    first [ apply yields_ret; eexists; reflexivity
          | apply yields_raise; reflexivity ].
Qed.

Ltac exactly lemma :=
  eapply (yields_bind _ _ _ (raises OverflowError));
  [apply yields_exactly; intros; apply lemma; first [eassumption | reflexivity]
  | tauto | intros ? <-].

Ltac float_step lemma :=
  eapply (yields_bind _ _ _ (raises OverflowError));
  [apply lemma | tauto | intros ? [? ->]].

(** X18. For coefficients that are ints (or bools) with a nonzero leading
    one, [solve_quadratic] can fail in one way only: with an
    [OverflowError], when a number is too large for a float.  It never
    divides by zero. *)
Theorem integer_coefficients_fail_only_by_overflow (a b c : value)
  (za zb zc : Z) (s s' : trace) (e : exception) :
  as_int a = Some za -> as_int b = Some zb -> as_int c = Some zc ->
  za <> 0%Z ->
  solve_quadratic libm_pow a b c s = (Raised e, s') ->
  raises OverflowError e.
Proof.
  intros Ha Hb Hc Hnz.
  set (d := (zb * zb - 4 * za * zc)%Z).
  assert (Hnonzero : (za =? 0)%Z = false) by now apply Z.eqb_neq.
  assert (Htwo : (2 * za)%Z <> 0%Z) by lia.
  unfold solve_quadratic.
  unfold bind at 1; cbn [check_numbers];
    rewrite (as_int_isinstance _ _ Ha), (as_int_isinstance _ _ Hb),
      (as_int_isinstance _ _ Hc);
    cbv beta iota delta [negb ret];
    run (py_eq_zero_int a za s Ha); rewrite Hnonzero;
    run (py_mul_ints b b zb zb s Hb Hb);
    run (py_mul_ints (VInt 4) a 4 za s eq_refl Ha);
    run (py_mul_ints (VInt (4 * za)) c (4 * za) zc s eq_refl Hc);
    run (py_sub_ints (VInt (zb * zb)) (VInt (4 * za * zc)) _ _ s
           eq_refl eq_refl);
    run (py_lt_zero_int (VInt (zb * zb - 4 * za * zc)) _ s eq_refl);
    fold d.
  destruct (d <? 0)%Z; [discriminate |].
  run (py_eq_zero_int (VInt d) d s eq_refl).
  destruct (d =? 0)%Z; intros Hrun.
  - match type of Hrun with
    | ?m s = _ =>
        assert (Hy : yields m one_root (raises OverflowError))
    end.
    { exactly py_neg_int.
      exactly (py_mul_ints (VInt 2) a 2 za).
      float_step (py_truediv_int_int (- zb) (2 * za) Htwo).
      apply yields_ret. eexists. reflexivity. }
    destruct Hy as (o & Hm & Ho). rewrite Hm in Hrun.
    injection Hrun as -> _. exact Ho.
  - match type of Hrun with
    | ?m s = _ =>
        assert (Hy : yields m two_roots (raises OverflowError))
    end.
    { float_step py_pow_int.
      exactly py_neg_int.
      float_step py_add_int_float.
      exactly (py_mul_ints (VInt 2) a 2 za).
      float_step (py_truediv_float_int (2 * za) Htwo).
      exactly py_neg_int.
      float_step py_sub_int_float.
      exactly (py_mul_ints (VInt 2) a 2 za).
      float_step (py_truediv_float_int (2 * za) Htwo).
      apply yields_ret. eexists. eexists. reflexivity. }
    destruct Hy as (o & Hm & Ho). rewrite Hm in Hrun.
    injection Hrun as -> _. exact Ho.
Qed.

End QuadraticFacts.

Section LoggedQuadraticFacts.
Context `{Repr}.
Variable libm_pow : spec_float -> spec_float -> spec_float.



End LoggedQuadraticFacts.

(** * The demonstration calls of the module *)

(** With a [pow] that is correctly rounded at 0.5, the three calls of the
    demonstration block give [(2.0, 1.0)], [None] and a [TypeError]. *)
Example solve_quadratic_1_m3_2 :
  solve_quadratic sqrt_pow (VInt 1) (VInt (-3)) (VInt 2) []
  = (Returned (VTuple [VFloat (double_of_Z 2); VFloat (double_of_Z 1)]), []).
Proof. reflexivity. Qed.

Example solve_quadratic_1_0_1 :
  solve_quadratic sqrt_pow (VInt 1) (VInt 0) (VInt 1) [] = (Returned VNone, []).
Proof. reflexivity. Qed.

Example solve_quadratic_a_1_2 :
  solve_quadratic_logged sqrt_pow (VStr "a") (VInt 1) (VInt 2) []
  = (Raised (new_exc TypeError "Параметр 'a' должен быть числом"),
     [(quadratic_logger,
       call_info "Calling solve_quadratic with args=('a', 1, 2), kwargs={}");
      (quadratic_logger,
       call_error ("Function solve_quadratic raised TypeError: "
                   +:+ "Параметр 'a' должен быть числом"))]).
Proof. reflexivity. Qed.

(** * Further concrete instances *)

Lemma fetch_failures_exhausted_witness :
  raises ConnectionError
    (new_exc_from ConnectionError "Ошибка при запросе к API: "
       (Exc RequestException [] None)) \/
  raises ValueError
    (new_exc_from ConnectionError "Ошибка при запросе к API: "
       (Exc RequestException [] None)) \/
  payload_failure
    (new_exc_from ConnectionError "Ошибка при запросе к API: "
       (Exc RequestException [] None)) \/
  offline (resolve_url None)
  = RequestFails (new_exc_from ConnectionError "Ошибка при запросе к API: "
                    (Exc RequestException [] None)) \/
  offline (resolve_url None)
  = Response (Raised (new_exc_from ConnectionError
                        "Ошибка при запросе к API: "
                        (Exc RequestException [] None))).
Proof.
  apply (fetch_failures_exhausted offline ["USD"] None [] []). reflexivity.
Defined.

Lemma foreign_failures_pass_through_witness :
  get_currencies interrupted_request ["USD"] None []
  = (Raised (Exc KeyboardInterrupt [] None), []).
Proof.
  apply (proj1 (foreign_failures_pass_through interrupted_request ["USD"]
                  None [] (Exc KeyboardInterrupt [] None)));
    reflexivity.
Defined.

Lemma failure_survives_more_codes_witness :
  get_currencies (serves (payload (VStr "abc"))) (["USD"] ++ ["EUR"]) None []
  = (Raised (new_exc TypeError
               ("Валюта 'USD' имеет нечисловой тип: " +:+ repr (VStr "abc"))),
     []).
Proof.
  apply (failure_survives_more_codes (serves (payload (VStr "abc")))
           ["USD"] ["EUR"] None [] []).
  reflexivity.
Defined.

Lemma returned_keys_in_request_order_witness :
  exists items,
    VDict [("USD", VFloat (double_of_Z 80))] = VDict items /\
    dict_keys items = first_occurrences ["USD"; "USD"].
Proof.
  apply (returned_keys_in_request_order (serves (payload (VInt 80)))
           ["USD"; "USD"] None [] []).
  reflexivity.
Defined.

Lemma valute_is_checked_only_by_the_loop_witness :
  get_currencies (serves (VDict [("Valute", VInt 5)])) [] None []
  = (Returned (VDict []), []) /\
  forall code rest,
    exists e,
      get_currencies (serves (VDict [("Valute", VInt 5)])) (code :: rest)
        None [] = (Raised e, []) /\
      (raises KeyError e \/ raises TypeError e).
Proof.
  apply (valute_is_checked_only_by_the_loop
           (serves (VDict [("Valute", VInt 5)]))
           [("Valute", VInt 5)] (VInt 5) None []); reflexivity.
Defined.

Lemma entry_must_be_an_object_witness :
  get_currencies (serves (VDict [("Valute", VDict [("USD", VInt 5)])]))
    ([] ++ "USD" :: []) None []
  = (Raised (new_exc AttributeError "'int' object has no attribute 'get'"),
     []).
Proof.
  apply (entry_must_be_an_object
           (serves (VDict [("Valute", VDict [("USD", VInt 5)])]))
           [("Valute", VDict [("USD", VInt 5)])] [("USD", VInt 5)]
           [] [] "USD" (VInt 5) None []);
    try reflexivity. constructor.
Defined.

Lemma integer_rate_must_fit_a_float_witness :
  get_currencies (serves (payload (VInt (10 ^ 400)))) ([] ++ "USD" :: [])
    None []
  = (Raised (new_exc OverflowError "int too large to convert to float"), []).
Proof.
  apply (integer_rate_must_fit_a_float
           (serves (payload (VInt (10 ^ 400))))
           [("Valute", VDict [("USD", VDict [("Value", VInt (10 ^ 400))])])]
           [("USD", VDict [("Value", VInt (10 ^ 400))])]
           [("Value", VInt (10 ^ 400))]
           [] [] "USD" (10 ^ 400) None []);
    first [reflexivity | constructor | vm_compute; reflexivity].
Defined.

Lemma payload_must_be_an_object_witness :
  exists e,
    get_currencies (serves (VList [])) ["USD"] None [] = (Raised e, []) /\
    (raises KeyError e \/ raises TypeError e).
Proof.
  apply (payload_must_be_an_object (serves (VList [])) (VList []) ["USD"]
           None []); reflexivity.
Defined.


Lemma first_non_number_is_reported_witness :
  solve_quadratic sqrt_pow (VInt 1) (VStr "b") VNone []
  = (Raised (new_exc TypeError "Параметр 'b' должен быть числом"), []).
Proof.
  apply (proj1 (proj2 (first_non_number_is_reported sqrt_pow
                         (VInt 1) (VStr "b") VNone []))); reflexivity.
Defined.

Lemma zero_leading_coefficient_is_refused_witness :
  solve_quadratic sqrt_pow (VFloat (S754_zero true)) (VInt 1) (VBool true) []
  = (Raised (new_exc ValueError "Коэффициент 'a' не может быть нулем"), []).
Proof.
  apply zero_leading_coefficient_is_refused; try reflexivity.
  right; right. exists true. reflexivity.
Defined.

Lemma integer_coefficients_witness :
  solve_quadratic sqrt_pow (VBool true) (VInt 0) (VInt 1) []
  = (Returned VNone, []).
Proof.
  apply (proj1 (integer_coefficients sqrt_pow (VBool true) (VInt 0) (VInt 1)
                  1 0 1 [] eq_refl eq_refl eq_refl ltac:(discriminate))).
  reflexivity.
Defined.

Lemma integer_coefficients_fail_only_by_overflow_witness :
  solve_quadratic sqrt_pow (VInt 1) (VInt (10 ^ 200)) (VInt 0) []
  = (Raised (new_exc OverflowError "int too large to convert to float"), [])
  /\ raises OverflowError
       (new_exc OverflowError "int too large to convert to float").
Proof.
  assert (Hrun : solve_quadratic sqrt_pow (VInt 1) (VInt (10 ^ 200)) (VInt 0) []
                 = (Raised (new_exc OverflowError
                              "int too large to convert to float"), []))
    by (vm_compute; reflexivity).
  split; [exact Hrun |].
  exact (integer_coefficients_fail_only_by_overflow sqrt_pow
           (VInt 1) (VInt (10 ^ 200)) (VInt 0) 1 (10 ^ 200) 0 [] [] _
           eq_refl eq_refl eq_refl ltac:(discriminate) Hrun).
Defined.
